(** * Ensemble distribution distillation: a shallow embedding

    The development follows these source files of the repository:
    - [src/distilled/logits_probability_distribution.py]
      (class [LogitsProbabilityDistribution]),
    - [src/dataloaders/gaussian_sinus.py] (class [GaussianSinus]),
    - [src/experiments/mnist_ensemble_test.py] (the caller of
      [metrics.uncertainty_separation_entropy]).

    Conventions of the embedding.
    - Tensor entries are real numbers ([R]): the floating-point
      arithmetic of the numeric backend is idealised, so rounding,
      overflow, infinities and NaN are outside the model.
    - A Python call that can raise is a function into [Result]; the
      exception classes that the modelled code can meet are listed in
      [PyError].
    - The global random generators of torch and numpy are threaded
      explicitly.
    - A tensor carries the sizes that nested lists lose when an outer
      dimension is empty. *)

From Stdlib Require Import Reals Lra Lia.
From stdpp Require Import base option list gmap strings.

(** ** Exceptions *)

Inductive PyError : Type :=
| IndexError
| RuntimeError
| ValueError
| NameError
| AssertionError
| FileExistsError
| FileNotFoundError
| IsADirectoryError.

Inductive Result (A : Type) : Type :=
| Ok (a : A)
| Raise (e : PyError).
Arguments Ok {A} a.
Arguments Raise {A} e.

Definition rbind {A B : Type} (c : Result A) (k : A -> Result B) : Result B :=
  match c with
  | Ok a => k a
  | Raise e => Raise e
  end.

Notation "'let*' x ':=' c 'in' k" := (rbind c (fun x => k))
  (at level 10, x pattern, c at level 100, k at level 200).

Definition rmap {A B : Type} (f : A -> B) (c : Result A) : Result B :=
  let* a := c in Ok (f a).

(** [for i in is: s = body(i, s)], stopping at the first exception. *)
Fixpoint for_each {S : Type} (idx : list nat) (body : nat -> S -> Result S)
    (s : S) : Result S :=
  match idx with
  | [] => Ok s
  | i :: rest => let* s' := body i s in for_each rest body s'
  end.

(** [range(n)] *)
Definition range (n : nat) : list nat := seq 0 n.

(** [l[i]] for an index [i >= 0] *)
Definition index {A : Type} (l : list A) (i : nat) : Result A :=
  match l !! i with
  | Some a => Ok a
  | None => Raise IndexError
  end.

(** [l[-1]] *)
Definition index_last {A : Type} (l : list A) : Result A :=
  match last l with
  | Some a => Ok a
  | None => Raise IndexError
  end.

(** ** Tensors *)

Module Torch.

Open Scope R_scope.

(** A tensor of shape [(length rows, cols)]. *)
Record Tensor2 : Type := T2 { cols : nat; rows : list (list R) }.

(** A tensor of shape [(length cells, dim1, dim2)]. *)
Record Tensor3 : Type :=
  T3 { dim1 : nat; dim2 : nat; cells : list (list (list R)) }.

Definition wf2 (t : Tensor2) : Prop :=
  Forall (fun r => length r = cols t) (rows t).

Definition wf3 (t : Tensor3) : Prop :=
  Forall (fun c => length c = dim1 t /\ Forall (fun r => length r = dim2 t) c)
         (cells t).

Definition shape3 (t : Tensor3) : nat * nat * nat :=
  (length (cells t), dim1 t, dim2 t).

(** [t.size(0)] *)
Definition size0 (t : Tensor2) : nat := length (rows t).

(** Entrywise application of a scalar function. *)
Definition map2d (f : R -> R) (t : Tensor2) : Tensor2 :=
  T2 (cols t) (map (map f) (rows t)).

(** [x[:, :mid]] *)
Definition slice_to (mid : nat) (x : Tensor2) : Tensor2 :=
  T2 (Nat.min mid (cols x)) (map (take mid) (rows x)).

(** [x[:, mid:]] *)
Definition slice_from (mid : nat) (x : Tensor2) : Tensor2 :=
  T2 (cols x - mid) (map (drop mid) (rows x)).

(** [torch.sum] of a vector. *)
Definition sum (v : list R) : R := foldr Rplus 0 v.

Definition dot (u v : list R) : R := sum (zip_with Rmult u v).

(** [nn.functional.relu] *)
Definition relu (t : Tensor2) : Tensor2 := map2d (Rmax 0) t.

(** [nn.Linear]: [weight] has shape [(out_features, in_features)] and
    [bias] has shape [(out_features)]. *)
Record Linear : Type := {
  in_features : nat;
  out_features : nat;
  weight : list (list R);
  bias : list R
}.

Definition wf_linear (l : Linear) : Prop :=
  length (weight l) = out_features l /\
  Forall (fun w => length w = in_features l) (weight l) /\
  length (bias l) = out_features l.

(** The constructor [nn.Linear(i, o)].  Its parameters are initialised
    at random; the initial values are the arguments [w] and [b]. *)
Definition nn_Linear (w : nat -> nat -> R) (b : nat -> R) (i o : nat) : Linear :=
  {| in_features := i;
     out_features := o;
     weight := map (fun r => map (w r) (range i)) (range o);
     bias := map b (range o) |}.

(** [layer(x)], that is [x @ weight.T + bias]; a last dimension other
    than [in_features] is a shape error. *)
Definition linear (l : Linear) (x : Tensor2) : Result Tensor2 :=
  if Nat.eqb (cols x) (in_features l)
  then Ok (T2 (out_features l)
              (map (fun r => zip_with (fun w b => dot r w + b) (weight l) (bias l))
                   (rows x)))
  else Raise RuntimeError.

(** *** Three-dimensional tensors *)

(** [torch.zeros([b, s, k])] *)
Definition zeros (b s k : nat) : Tensor3 :=
  T3 s k (replicate b (replicate s (replicate k 0))).

Definition map3d (f : R -> R) (t : Tensor3) : Tensor3 :=
  T3 (dim1 t) (dim2 t) (map (map (map f)) (cells t)).

(** [torch.sum(t, dim=-1, keepdim=True)] *)
Definition sum_keepdim (t : Tensor3) : Tensor3 :=
  T3 (dim1 t) 1 (map (map (fun r => [sum r])) (cells t)).

(** [a / b] and [a - b] for [b] of last dimension 1, which is broadcast
    along the last dimension of [a]; the leading dimensions agree at
    both uses in the modelled code. *)
Definition broadcast_last (op : R -> R -> R) (a b : Tensor3) : Tensor3 :=
  T3 (dim1 a) (dim2 a)
     (zip_with (zip_with (fun ra rb => map (fun v => op v (hd 0 rb)) ra))
               (cells a) (cells b)).

(** [t[:, :, -1]] *)
Definition select_last (t : Tensor3) : Result Tensor2 :=
  if Nat.eqb (dim2 t) 0 then Raise IndexError
  else Ok (T2 (dim1 t) (map (map (fun r => default 0 (last r))) (cells t))).

(** [torch.stack([t], axis=-1)] *)
Definition stack_last (t : Tensor2) : Tensor3 :=
  T3 (cols t) 1 (map (map (fun v => [v])) (rows t)).

(** [t[:, :, :-1]] *)
Definition drop_last (t : Tensor3) : Tensor3 :=
  T3 (dim1 t) (dim2 t - 1) (map (map (fun r => removelast r)) (cells t)).

(** Broadcasting of a list of length [n] or 1 to length [n]. *)
Definition broadcastable (len n : nat) : bool :=
  Nat.eqb len n || Nat.eqb len 1.

Definition expand {A : Type} (n : nat) (d : A) (l : list A) : list A :=
  if Nat.eqb (length l) n then l else replicate n (hd d l).

(** [t[i, :, :] = v]: the value is broadcast to the shape
    [(dim1 t, dim2 t)] of the slice. *)
Definition set_item (t : Tensor3) (i : nat) (v : Tensor2) : Result Tensor3 :=
  if negb (Nat.ltb i (length (cells t))) then Raise IndexError
  else if broadcastable (length (rows v)) (dim1 t)
          && broadcastable (cols v) (dim2 t)
  then Ok (T3 (dim1 t) (dim2 t)
              (<[i := expand (dim1 t) [] (map (expand (dim2 t) 0) (rows v))]>
                 (cells t)))
  else Raise RuntimeError.

(** *** Random draws *)

(** The state of the generator: the sequence of standard normal draws
    it produces and the number of draws already taken.  The sequence is
    arbitrary; how torch's own state moves with the size of each
    request is not modelled.  An exception ends the modelled call, and
    the state of the generator after it is not tracked. *)
Record Generator : Type := { stream : nat -> R; position : nat }.

(** A tensor of shape [(n, k)] of standard normal draws, filled in
    row-major order. *)
Definition standard_normal (n k : nat) (g : Generator) : Tensor2 * Generator :=
  (T2 k (map (fun j => map (fun c => stream g (position g + (j * k + c))%nat)
                           (range k))
             (range n)),
   {| stream := stream g; position := (position g + n * k)%nat |}).

(** [MultivariateNormal(loc=loc, covariance_matrix=torch.diag(var))].
    The distribution keeps the lower Cholesky factor of the covariance
    matrix, which for [diag(var)] is [diag(sqrt var)]; only its
    diagonal [scale] is stored.  A covariance matrix that is not
    positive definite is refused. *)
Record MultivariateNormal : Type := { loc : list R; scale : list R }.

Definition positive (v : R) : bool := if Rlt_dec 0 v then true else false.

Definition MultivariateNormal_diag (loc var : list R) : Result MultivariateNormal :=
  if forallb positive var
  then Ok {| loc := loc; scale := map sqrt var |}
  else Raise ValueError.

(** [rv.rsample([n])]: [loc + scale_tril @ eps] for standard normal
    [eps] of shape [(n, len(loc))]; the product fails when the factor
    and [loc] differ in size. *)
Definition rsample (rv : MultivariateNormal) (n : nat) (g : Generator)
    : Result (Tensor2 * Generator) :=
  let '(eps, g) := standard_normal n (length (loc rv)) g in
  if Nat.eqb (length (scale rv)) (length (loc rv))
  then Ok (T2 (cols eps)
              (map (fun e => zip_with Rplus (loc rv) (zip_with Rmult (scale rv) e))
                   (rows eps)),
           g)
  else Raise RuntimeError.

(** *** Optimizers *)

(** [torch_optim.Adam(params, lr=lr)], as far as construction goes: a
    negative learning rate is refused, and so is an empty list of
    parameters; both raise [ValueError].  The parameters of a module
    are those of its layers, a weight and a bias each, however small.
    The state of the optimizer is not modelled. *)
Definition Adam (params : list Linear) (lr : R) : Result unit :=
  if Rle_dec 0 lr
  then match params with
       | [] => Raise ValueError
       | _ :: _ => Ok tt
       end
  else Raise ValueError.

End Torch.

(** ** The distilled model: a Gaussian over the teacher's logits *)

Module LogitsProbabilityDistribution.

Import Torch.
Open Scope R_scope.

(** The teacher is an ensemble, or any object with [get_logits]; its
    class is outside the modelled files and is taken as given. *)
Record Teacher : Type := { get_logits : Tensor2 -> Result Tensor3 }.

(** The attributes of an instance.  [teacher], [loss] and [output_size]
    are held by the base class [DistilledNet], which is outside the
    modelled files: [loss] is whatever the base class stores for the
    [loss_function] it is given, and [output_size] is read by [predict]
    without being assigned in this class.  The logger, the device and
    the optimizer state play no part in the modelled methods. *)
Record Model : Type := {
  teacher : Teacher;
  loss : Tensor2 * Tensor2 -> Tensor3 -> Result R;
  output_size : nat;
  use_hard_labels : bool;
  learning_rate : R;
  scale_teacher_logits : bool;
  layers : list Linear;
  variance_lower_bound : R
}.

(** What the constructor receives besides [layer_sizes]: its keyword
    arguments, the values the base class fixes, and the initial values
    of the parameters of layer [i] ([init_weight i], [init_bias i]). *)
Record InitArgs : Type := {
  arg_teacher : Teacher;
  arg_loss_function : Tensor2 * Tensor2 -> Tensor3 -> Result R;
  arg_output_size : nat;
  arg_use_hard_labels : bool;
  arg_learning_rate : R;
  arg_scale_teacher_logits : bool;
  init_weight : nat -> nat -> nat -> R;
  init_bias : nat -> nat -> R
}.

(** [__init__]: one [nn.Linear] per pair of consecutive layer sizes,
    the variance floor fixed at [0.001], and the optimizer created
    over the parameters of the layers, which is where a list of fewer
    than two sizes is refused.  The warning logged for a positive floor
    and the move to the device are not modelled. *)
Definition __init__ (layer_sizes : list nat) (a : InitArgs) : Result Model :=
  let* ls :=
    for_each (range (length layer_sizes - 1))
      (fun i (ls : list Linear) =>
         let* n_in := index layer_sizes i in
         let* n_out := index layer_sizes (i + 1) in
         Ok (ls ++ [nn_Linear (init_weight a i) (init_bias a i) n_in n_out]))
      [] in
  let* _ := Adam ls (arg_learning_rate a) in
  Ok {| teacher := arg_teacher a;
        loss := arg_loss_function a;
        output_size := arg_output_size a;
        use_hard_labels := arg_use_hard_labels a;
        learning_rate := arg_learning_rate a;
        scale_teacher_logits := arg_scale_teacher_logits a;
        layers := ls;
        variance_lower_bound := 1 / 1000 |}.

(** [for layer in self.layers[:-1]: x = relu(layer(x))] *)
Fixpoint hidden_layers (ls : list Linear) (x : Tensor2) : Result Tensor2 :=
  match ls with
  | [] => Ok x
  | layer :: rest => let* y := linear layer x in hidden_layers rest (relu y)
  end.

(** [forward]: the first half of the last layer's output is the mean,
    the second half goes through [log(1 + exp(.))] plus the floor. *)
Definition forward (self : Model) (x : Tensor2) : Result (Tensor2 * Tensor2) :=
  let* x := hidden_layers (removelast (layers self)) x in
  let* out := index_last (layers self) in
  let* x := linear out x in
  let mid := (cols x / 2)%nat in
  let mean := slice_to mid x in
  let var_z := slice_from mid x in
  let var := map2d (fun z => ln (1 + exp z) + variance_lower_bound self) var_z in
  Ok (mean, var).

(** [_generate_teacher_predictions] *)
Definition _generate_teacher_predictions (self : Model) (inputs : Tensor2)
    : Result Tensor3 :=
  let* logits := get_logits (teacher self) inputs in
  if scale_teacher_logits self then
    let* last_logit := select_last logits in
    let scaled_logits := broadcast_last Rminus logits (stack_last last_logit) in
    Ok (drop_last scaled_logits)
  else Ok logits.

(** [predict] *)
Definition predict (self : Model) (input_ : Tensor2) (num_samples : option nat)
    (g : Generator) : Result (Tensor3 * Generator) :=
  let num_samples :=
    match num_samples with None => 50%nat | Some n => n end in
  let* (mean, var) := forward self input_ in
  let samples := zeros (size0 input_) num_samples (output_size self / 2) in
  let* (samples, g) :=
    for_each (range (size0 input_))
      (fun i '(samples, g) =>
         let* mean_i := index (rows mean) i in
         let* var_i := index (rows var) i in
         let* rv := MultivariateNormal_diag mean_i var_i in
         let* (draws, g) := rsample rv num_samples g in
         let* samples := set_item samples i draws in
         Ok (samples, g))
      (samples, g) in
  let softmax_samples :=
    broadcast_last Rdiv (map3d exp samples)
      (map3d (fun v => v + 1) (sum_keepdim (map3d exp samples))) in
  Ok (softmax_samples, g).

(** [predict_logits] *)
Definition predict_logits (self : Model) (input_ : Tensor2)
    (num_samples : option nat) (g : Generator) : Result (Tensor3 * Generator) :=
  let num_samples :=
    match num_samples with None => 50%nat | Some n => n end in
  let* (mean, var) := forward self input_ in
  let samples := zeros (size0 input_) num_samples (output_size self / 2) in
  let* (samples, g) :=
    for_each (range (size0 input_))
      (fun i '(samples, g) =>
         let* mean_i := index (rows mean) i in
         let* var_i := index (rows var) i in
         let* rv := MultivariateNormal_diag mean_i var_i in
         let* (draws, g) := rsample rv num_samples g in
         let* samples := set_item samples i draws in
         Ok (samples, g))
      (samples, g) in
  Ok (samples, g).

(** [calculate_loss]; [labels] defaults to [None]. *)
Definition calculate_loss (self : Model) (outputs : Tensor2 * Tensor2)
    (teacher_predictions : Tensor3) (labels : option (list nat)) : Result R :=
  loss self outputs teacher_predictions.

(** The width that an input of width [n] has after the layers [ls],
    when every layer receives the width it was built for. *)
Fixpoint chain (n : nat) (ls : list Linear) : option nat :=
  match ls with
  | [] => Some n
  | l :: rest =>
      if Nat.eqb (in_features l) n then chain (out_features l) rest else None
  end.

(** A model for [num_classes] classes and inputs of width [n]: the
    layers fit each other, the last one has width
    [output_size = 2 * num_classes], and the variance floor is not
    negative. *)
Definition wf_model (self : Model) (n num_classes : nat) : Prop :=
  layers self <> [] /\
  Forall wf_linear (layers self) /\
  chain n (layers self) = Some (output_size self) /\
  output_size self = (2 * num_classes)%nat /\
  0 <= variance_lower_bound self.

(** The transform of a draw in the words of the spec:
    [exp(sample) / (sum(exp(sample)) + 1)]. *)
Definition softmax_like (s : list R) : list R :=
  map (fun s_k => exp s_k / (sum (map exp s) + 1)) s.

Definition softmax_like_samples (samples : Tensor3) : Tensor3 :=
  T3 (dim1 samples) (dim2 samples) (map (map softmax_like) (cells samples)).

(** The draws of example [i] in the words of the spec: [num_samples]
    vectors [mean + sqrt(variance) * noise], the noise taken from the
    generator in order. *)
Definition gaussian_draws (g : Generator) (num_samples k i : nat)
    (mean_i var_i : list R) : list (list R) :=
  map (fun j =>
         zip_with Rplus mean_i
           (zip_with Rmult (map sqrt var_i)
              (map (fun c => stream g (position g + ((i * num_samples + j) * k + c))%nat)
                   (range k))))
      (range num_samples).

(** The centring of the teacher's logits in the words of the spec:
    the last class's logit is subtracted from every logit. *)
Definition centred_logits (logits : Tensor3) : Tensor3 :=
  T3 (dim1 logits) (dim2 logits)
     (map (map (fun r => map (fun v => v - default 0 (last r)) r)) (cells logits)).

(** The same constructor arguments with another [use_hard_labels]. *)
Definition with_arg_use_hard_labels (b : bool) (a : InitArgs) : InitArgs :=
  {| arg_teacher := arg_teacher a;
     arg_loss_function := arg_loss_function a;
     arg_output_size := arg_output_size a;
     arg_use_hard_labels := b;
     arg_learning_rate := arg_learning_rate a;
     arg_scale_teacher_logits := arg_scale_teacher_logits a;
     init_weight := init_weight a;
     init_bias := init_bias a |}.

(** The same instance with another value of [use_hard_labels]. *)
Definition with_use_hard_labels (b : bool) (self : Model) : Model :=
  {| teacher := teacher self;
     loss := loss self;
     output_size := output_size self;
     use_hard_labels := b;
     learning_rate := learning_rate self;
     scale_teacher_logits := scale_teacher_logits self;
     layers := layers self;
     variance_lower_bound := variance_lower_bound self |}.

(** The body of the loop that [predict] and [predict_logits] both
    contain, named for the statements about it. *)
Definition sampling_step (mean var : Tensor2) (num_samples : nat) (i : nat)
    (st : Tensor3 * Generator) : Result (Tensor3 * Generator) :=
  let (samples, g) := st in
  let* mean_i := index (rows mean) i in
  let* var_i := index (rows var) i in
  let* rv := MultivariateNormal_diag mean_i var_i in
  let* (draws, g) := rsample rv num_samples g in
  let* samples := set_item samples i draws in
  Ok (samples, g).

(** The invariant of the sampling loop after [i] iterations. *)
Definition sampling_inv (g : Generator) (mean var : Tensor2) (b n k i : nat)
    (st : Tensor3 * Generator) : Prop :=
  dim1 st.1 = n /\ dim2 st.1 = k /\ length (cells st.1) = b /\
  st.2 = {| stream := stream g; position := (position g + i * n * k)%nat |} /\
  forall i' mean_i var_i, (i' < i)%nat ->
    rows mean !! i' = Some mean_i -> rows var !! i' = Some var_i ->
    cells st.1 !! i' = Some (gaussian_draws g n k i' mean_i var_i).

End LogitsProbabilityDistribution.

(** ** Uncertainty metrics *)

Module Metrics.

Import Torch.
Open Scope R_scope.

(** Modelled from the spec: the Shannon entropy of a probability
    vector, [- sum_k p_k ln p_k].  The module [src/metrics.py] is not
    among the modelled files; the spec fixes no base for the logarithm
    and the natural one is taken. *)
Definition entropy (p : list R) : R := - sum (map (fun x => x * ln x) p).

(** Modelled from the spec: the sum over the sample axis, that is the
    sum of the rows of an [s x k] matrix, column by column. *)
Definition col_sums (k : nat) (e : list (list R)) : list R :=
  foldr (zip_with Rplus) (replicate k 0) e.

(** Modelled from the spec: the sample-averaged predictive
    distribution, the mean over the sample axis of a tensor of shape
    [(batch, samples, classes)]. *)
Definition mean_samples (t : Tensor3) : Tensor2 :=
  T2 (dim2 t)
     (map (fun e => map (fun s => s / INR (dim1 t)) (col_sums (dim2 t) e))
          (cells t)).

(** Modelled from the spec: [metrics.uncertainty_separation_entropy],
    absent from the modelled files and known through its caller
    [uncertainty_rotation], which unpacks the result as
    [(total, epistemic, aleatoric)], one value per example.  Total is
    the entropy of the sample-averaged distribution, aleatoric the mean
    of the per-sample entropies, epistemic their difference. *)
Definition uncertainty_separation_entropy (predicted_distribution : Tensor3)
    (labels : option (list nat)) : list R * list R * list R :=
  let mean_predictions := mean_samples predicted_distribution in
  let total_uncertainty := map entropy (rows mean_predictions) in
  let aleatoric_uncertainty :=
    map (fun e => sum (map entropy e) / INR (dim1 predicted_distribution))
        (cells predicted_distribution) in
  let epistemic_uncertainty :=
    zip_with Rminus total_uncertainty aleatoric_uncertainty in
  (total_uncertainty, epistemic_uncertainty, aleatoric_uncertainty).

(** The [c]-th column of a matrix given by rows. *)
Definition column (c : nat) (e : list (list R)) : list R :=
  map (fun r => default 0 (r !! c)) e.

(** The entries of a predictive sample set are probabilities. *)
Definition probabilities (t : Tensor3) : Prop :=
  Forall (Forall (Forall (fun p => 0 <= p <= 1))) (cells t).

End Metrics.

(** ** The one-dimensional regression dataset *)

Module GaussianSinus.

Open Scope R_scope.

(** A path is the list of its components; [Path.parent] drops the last. *)
Definition Path : Type := list string.

Definition parent (p : Path) : Path := removelast p.

(** The array written by [np.savetxt], row by row. *)
Definition Array : Type := list (list R).

(** The functions of [np.random] that the class calls, over a state
    [RS] of numpy's generator. *)
Class NumpyRandom (RS : Type) : Type := {
  uniform : R -> R -> nat -> RS -> list R * RS;
  multivariate_normal : list R -> list (list R) -> RS -> Result (list R) * RS;
  shuffle : Array -> RS -> Array * RS
}.

(** The file system and the generator. *)
Record World (RS : Type) : Type := {
  files : gmap Path Array;
  dirs : gset Path;
  random_state : RS
}.
Arguments files {RS} w.
Arguments dirs {RS} w.
Arguments random_state {RS} w.

(** A call runs in a world and leaves one, also when it raises. *)
Definition M (RS A : Type) : Type := World RS -> Result A * World RS.

Definition mret {RS A : Type} (a : A) : M RS A := fun w => (Ok a, w).

Definition mraise {RS A : Type} (e : PyError) : M RS A := fun w => (Raise e, w).

Definition mbind {RS A B : Type} (c : M RS A) (k : A -> M RS B) : M RS B :=
  fun w =>
    match c w with
    | (Ok a, w') => k a w'
    | (Raise e, w') => (Raise e, w')
    end.

Notation "'let!' x ':=' c 'in' k" := (mbind c (fun x => k))
  (at level 10, x pattern, c at level 100, k at level 200).

Section Dataset.

Context {RS : Type} `{NumpyRandom RS}.

(** [Path.exists] *)
Definition path_exists (p : Path) (w : World RS) : bool :=
  bool_decide (is_Some (files w !! p)) || bool_decide (p ∈ dirs w).

(** The directories from the first component of [p] down to [p]. *)
Definition ancestors (p : Path) : list Path :=
  map (fun n => take n p) (seq 1 (length p)).

(** [p.mkdir(parents=True, exist_ok=True)]: a file in the place of [p]
    or of a directory above it makes the call fail.  Python reports the
    first as [FileExistsError] and the second as [NotADirectoryError];
    the two are not told apart here. *)
Definition mkdir (p : Path) : M RS unit :=
  fun w =>
    if existsb (fun q => bool_decide (is_Some (files w !! q))) (ancestors p)
    then (Raise FileExistsError, w)
    else (Ok tt,
          {| files := files w;
             dirs := dirs w ∪ list_to_set (ancestors p);
             random_state := random_state w |}).

(** Opening the file at [p] and reading its rows. *)
Definition read_rows (p : Path) : M RS Array :=
  fun w =>
    match files w !! p with
    | Some a => (Ok a, w)
    | None =>
        if bool_decide (p ∈ dirs w) then (Raise IsADirectoryError, w)
        else (Raise FileNotFoundError, w)
    end.

(** [np.savetxt(p, a, delimiter=",")]; [p] must not be a directory and
    the directory of [p] has to exist; the working directory [[]] is a
    directory that always exists. *)
Definition savetxt (p : Path) (a : Array) : M RS unit :=
  fun w =>
    if bool_decide (p = [] \/ p ∈ dirs w) then (Raise IsADirectoryError, w)
    else if negb (bool_decide (parent p = [] \/ parent p ∈ dirs w))
    then (Raise FileNotFoundError, w)
    else (Ok tt,
          {| files := <[p := a]> (files w);
             dirs := dirs w;
             random_state := random_state w |}).

(** The calls into [np.random]. *)
Definition random_uniform (low high : R) (size : nat) : M RS (list R) :=
  fun w =>
    let '(x, s) := uniform low high size (random_state w) in
    (Ok x, {| files := files w; dirs := dirs w; random_state := s |}).

Definition random_multivariate_normal (mean : list R) (cov : list (list R))
    : M RS (list R) :=
  fun w =>
    let '(y, s) := multivariate_normal mean cov (random_state w) in
    (y, {| files := files w; dirs := dirs w; random_state := s |}).

Definition random_shuffle (a : Array) : M RS Array :=
  fun w =>
    let '(a', s) := shuffle a (random_state w) in
    (Ok a', {| files := files w; dirs := dirs w; random_state := s |}).

(** [np.diag(v)] *)
Definition diag (v : list R) : list (list R) :=
  imap (fun i x => replicate i 0 ++ x :: replicate (length v - S i) 0) v.

(** [np.column_stack((x, y))] for two vectors. *)
Definition column_stack (x y : list R) : Result Array :=
  if Nat.eqb (length x) (length y)
  then Ok (zip_with (fun a b => [a; b]) x y)
  else Raise ValueError.

(** Reading a local variable that may not have been assigned
    ([UnboundLocalError], a [NameError]). *)
Definition read_local {A : Type} (v : option A) : M RS A :=
  match v with
  | Some a => mret a
  | None => mraise NameError
  end.

Definition lift {A : Type} (r : Result A) : M RS A := fun w => (r, w).

(** The attributes of a dataset object. *)
Record Self : Type := {
  n_samples : nat;
  train : bool;
  file : Path
}.

(** [sample_new_data]: the local [y] is assigned in the training branch
    only. *)
Definition sample_new_data (self : Self) : M RS unit :=
  let! _ := mkdir (parent (file self)) in
  let! (x, y) :=
    if train self then
      let! x := random_uniform (-3) 3 (n_samples self) in
      let mu := map sin x in
      let sigma := map (fun v => 15 / 100 * 1 / (1 + exp (- v))) x in
      let sigma := map (fun s => s ^ 2) sigma in
      let! y := random_multivariate_normal mu (diag sigma) in
      mret (x, Some y)
    else
      let! x := random_uniform (-3) 3 (n_samples self) in
      mret (x, None) in
  let! y := read_local y in
  let! combined_data := lift (column_stack x y) in
  let! combined_data := random_shuffle combined_data in
  savetxt (file self) combined_data.

(** [validate_dataset] *)
Definition validate_dataset (self : Self) : M RS unit :=
  let! csv_reader := read_rows (file self) in
  if Z.eqb (Z.of_nat (n_samples self) - 1) (Z.of_nat (length csv_reader))
  then mret tt
  else mraise AssertionError.

(** [__init__]; the defaults are [train=True], [reuse_data=False] and
    [n_samples=1000]. *)
Definition __init__ (store_file : Path) (train : bool) (reuse_data : bool)
    (n_samples : nat) : M RS Self :=
  let self := {| n_samples := n_samples; train := train; file := store_file |} in
  fun w =>
    if path_exists (file self) w && reuse_data
    then (let! _ := validate_dataset self in mret self) w
    else (let! _ := sample_new_data self in mret self) w.

End Dataset.

End GaussianSinus.

(** ** Worked instances *)

Module Examples.

Import Torch LogitsProbabilityDistribution.
Open Scope R_scope.

Definition no_teacher : Teacher := {| get_logits := fun _ => Raise ValueError |}.

(** One layer from one input to two outputs: a mean and a variance
    for a single class. *)
Definition small_layer : Linear :=
  {| in_features := 1; out_features := 2;
     weight := [[1]; [-1]]; bias := [1 / 2; 0] |}.

Definition small_model : Model :=
  {| teacher := no_teacher;
     loss := fun _ _ => Ok 0;
     output_size := 2;
     use_hard_labels := false;
     learning_rate := 1 / 1000;
     scale_teacher_logits := false;
     layers := [small_layer];
     variance_lower_bound := 1 / 1000 |}.

Definition small_input : Tensor2 := T2 1 [[2]].

(** A teacher with one member and three classes, and a model that
    centres its logits. *)
Definition three_logits : Tensor3 := T3 1 3 [[[1; 2; 3]]].

Definition fixed_teacher : Teacher := {| get_logits := fun _ => Ok three_logits |}.

Definition centring_model : Model :=
  {| teacher := fixed_teacher;
     loss := fun _ _ => Ok 0;
     output_size := 4;
     use_hard_labels := false;
     learning_rate := 1 / 1000;
     scale_teacher_logits := true;
     layers := [small_layer];
     variance_lower_bound := 1 / 1000 |}.

(** Constructor arguments, with every initial parameter equal to 1. *)
Definition unit_args : InitArgs :=
  {| arg_teacher := no_teacher;
     arg_loss_function := fun _ _ => Ok 0;
     arg_output_size := 3;
     arg_use_hard_labels := false;
     arg_learning_rate := 1 / 1000;
     arg_scale_teacher_logits := false;
     init_weight := fun _ _ _ => 1;
     init_bias := fun _ _ => 1 |}.

(** Two samples over two classes for one example. *)
Definition two_samples : Tensor3 :=
  T3 2 2 [[[1 / 2; 1 / 2]; [1 / 4; 3 / 4]]].

(** A generator whose [n]-th draw is [n]. *)
Definition counting_noise : Generator := {| stream := INR; position := 0 |}.


(** A stand-in for [np.random] without randomness: the uniform draws
    are all [low], the normal draws are the mean, and the shuffle keeps
    the order. *)
#[global] Instance fixed_random : GaussianSinus.NumpyRandom unit :=
  {| GaussianSinus.uniform := fun low _ size _ => (replicate size low, tt);
     GaussianSinus.multivariate_normal := fun mean _ _ => (Ok mean, tt);
     GaussianSinus.shuffle := fun a _ => (a, tt) |}.

Definition empty_world : GaussianSinus.World unit :=
  {| GaussianSinus.files := ∅;
     GaussianSinus.dirs := ∅;
     GaussianSinus.random_state := tt |}.

Definition store_file : GaussianSinus.Path := ["data"; "1d_gauss_sinus"]%string.

End Examples.

(** ** More of the source files *)

(** Exceptions that the functions below can raise and that [PyError]
    does not list, and the outcome of a call that can raise them. *)
Inductive Exn : Type :=
| TypeError
| ZeroDivisionError
| KeyError
| OSError
| Listed (e : PyError).

Inductive Outcome (A : Type) : Type :=
| Returns (a : A)
| Throws (e : Exn).
Arguments Returns {A} a.
Arguments Throws {A} e.

Definition obind {A B : Type} (c : Outcome A) (k : A -> Outcome B) : Outcome B :=
  match c with
  | Returns a => k a
  | Throws e => Throws e
  end.

Notation "'let^' x ':=' c 'in' k" := (obind c (fun x => k))
  (at level 10, x pattern, c at level 100, k at level 200).

(** [for x in xs: acc.append(f(x))], stopping at the first exception. *)
Fixpoint collect {A B : Type} (f : A -> Outcome B) (xs : list A)
    : Outcome (list B) :=
  match xs with
  | [] => Returns []
  | x :: rest =>
      let^ b := f x in
      let^ bs := collect f rest in
      Returns (b :: bs)
  end.

(** *** The reporting methods of the distilled model *)

Module LogitsProbabilityDistributionRest.

Import Torch LogitsProbabilityDistribution.
Open Scope R_scope.

(** [torch.mean(t, dim=0)]: the mean of the rows, column by column.
    For a batch without rows torch returns NaN, which the real numbers
    do not have; the statements about this function take a batch with
    at least one row. *)
Definition mean_dim0 (t : Tensor2) : list R :=
  map (fun s => s / INR (length (rows t))) (Metrics.col_sums (cols t) (rows t)).

(** [_learning_rate_condition]; [epoch] defaults to [None]. *)
Definition _learning_rate_condition (self : Model) (epoch : option nat) : bool :=
  true.

(** [mean_expected_value] *)
Definition mean_expected_value (self : Model) (outputs : Tensor2 * Tensor2)
    (teacher_predictions : Tensor3) : list R :=
  let exp_value := outputs.1 in
  mean_dim0 exp_value.

(** [mean_variance] *)
Definition mean_variance (self : Model) (outputs : Tensor2 * Tensor2)
    (teacher_predictions : Tensor3) : list R :=
  let variance := outputs.2 in
  mean_dim0 variance.

(** Two tensors of logits of the same shape that differ, for every
    example and member, by a constant added to all classes. *)
Definition shifted (logits logits' : Tensor3) : Prop :=
  dim1 logits' = dim1 logits /\ dim2 logits' = dim2 logits /\
  Forall2 (Forall2 (fun r r' => exists c, r' = map (fun v => v + c) r))
          (cells logits) (cells logits').

End LogitsProbabilityDistributionRest.

(** *** The reading methods of the regression dataset *)

Module GaussianSinusRest.

Import GaussianSinus.
Open Scope R_scope.

(** What the class relies on from [np.random]: [uniform] returns
    [size] values in [[low, high)], [multivariate_normal] returns one
    value per entry of the mean, and [shuffle] permutes the rows. *)
Class NumpyRandomLaws (RS : Type) `{NumpyRandom RS} : Prop := {
  uniform_length : forall low high size s,
    length (uniform low high size s).1 = size;
  uniform_range : forall low high size s,
    low < high -> Forall (fun x => low <= x < high) (uniform low high size s).1;
  multivariate_normal_length : forall mean cov s y,
    (multivariate_normal mean cov s).1 = Ok y -> length y = length mean;
  shuffle_permutation : forall a s, (shuffle a s).1 ≡ₚ a
}.

Section Dataset.

Context {RS : Type} `{NumpyRandom RS}.

(** [__len__] *)
Definition __len__ (self : Self) : nat := n_samples self.

(** [for count, row in enumerate(csv_reader): if count == index: ...],
    from the row numbered [count] on: the row kept in [sample], if any. *)
Fixpoint find_row (csv_reader : Array) (count : nat) (index : Z)
    : option (list R) :=
  match csv_reader with
  | [] => None
  | row :: rest =>
      if Z.eqb (Z.of_nat count) index then Some row
      else find_row rest (S count) index
  end.

(** [__getitem__]: the file is read and left as it is.  [sample] stays
    [None] when no row has the number [index], and [None[:-1]] is a
    [TypeError]; [sample[-1]] of a row without fields is an
    [IndexError].  The conversion of the fields to [np.float32] is a
    rounding, which the real numbers of the embedding do not show: a
    returned value stands for the nearest single-precision number. *)
Definition __getitem__ (self : Self) (index : Z) (w : World RS)
    : Outcome (list R * list R) :=
  match (read_rows (file self) w).1 with
  | Raise e => Throws (Listed e)
  | Ok csv_reader =>
      match find_row csv_reader 0 index with
      | None => Throws TypeError
      | Some sample =>
          let inputs := removelast sample in
          match last sample with
          | None => Throws (Listed IndexError)
          | Some targets => Returns (inputs, [targets])
          end
      end
  end.

(** [get_full_data]: [np.array] of rows of unequal lengths is a
    [ValueError].  The conversion of the fields to [float] is a
    rounding to double precision, which the real numbers of the
    embedding do not show. *)
Definition get_full_data (self : Self) : M RS Array :=
  let! tmp_raw_data := read_rows (file self) in
  match tmp_raw_data with
  | [] => mret []
  | row :: rest =>
      if forallb (fun r => Nat.eqb (length r) (length row)) rest
      then mret tmp_raw_data
      else mraise ValueError
  end.

End Dataset.

End GaussianSinusRest.

(** *** The accuracy loop of the MNIST experiment *)

Module MnistEnsembleTest.

Open Scope R_scope.

Section GetAccuracy.

(** The model and the metric are arguments of the experiment:
    [predict] is [model.predict], with the state [St] it runs in, and
    [accuracy] is [metrics.accuracy]; either can raise any exception. *)
Context {Inputs Labels Prediction St : Type}.
Variable predict : Inputs -> St -> Outcome (Prediction * St).
Variable accuracy : Labels -> Prediction -> Outcome R.

(** The loop of [get_accuracy] over the batches the loader yields. *)
Fixpoint accumulate (data_loader : list (Inputs * Labels)) (acc : R)
    (num_batches : nat) (st : St) : Outcome (R * nat * St) :=
  match data_loader with
  | [] => Returns (acc, num_batches, st)
  | (inputs, labels) :: rest =>
      let^ (predicted_distribution, st) := predict inputs st in
      let^ a := accuracy labels predicted_distribution in
      accumulate rest (acc + a) (S num_batches) st
  end.

(** [get_accuracy]: [accuracy / num_batches], a [ZeroDivisionError]
    when the loader yields no batch. *)
Definition get_accuracy (data_loader : list (Inputs * Labels)) (st : St)
    : Outcome (R * St) :=
  let^ (acc, num_batches, st) := accumulate data_loader 0 0 st in
  if Nat.eqb num_batches 0 then Throws ZeroDivisionError
  else Returns (acc / INR num_batches, st).

(** The accuracies of the batches in the order of the loader, each
    prediction made in the state the one before has left; the first
    exception of [predict] or [accuracy] ends the run. *)
Fixpoint batch_accuracies (data_loader : list (Inputs * Labels)) (st : St)
    : Outcome (list R * St) :=
  match data_loader with
  | [] => Returns ([], st)
  | (inputs, labels) :: rest =>
      let^ (predicted_distribution, st) := predict inputs st in
      let^ a := accuracy labels predicted_distribution in
      let^ (accs, st) := batch_accuracies rest st in
      Returns (a :: accs, st)
  end.

End GetAccuracy.

End MnistEnsembleTest.

(** *** The CIFAR-10 loader with ensemble predictions
    ([src/dataloaders/cifar10_ensemble_pred.py]) *)

Module Cifar10EnsemblePred.

Open Scope string_scope.

Section Loader.

(** The arrays of numpy, the indices that select along their first
    axis and the image transforms are kept abstract, and so is what
    h5py and numpy return for them: each of the calls below can return
    or raise. *)
Context {ndarray Index Transform : Type}.

(** [h5py.File(path, 'r')[g1][g2]...[name][()]] *)
Variable h5_dataset : string -> list string -> string -> Outcome ndarray.
(** [a[ind, ...]] *)
Variable take : ndarray -> Index -> Outcome ndarray.
(** [np.load(path)] *)
Variable np_load : string -> Outcome ndarray.
(** [a[:5000]] *)
Variable first_5000 : ndarray -> ndarray.
(** [a[training_inds, ...]] for an array of indices *)
Variable take_rows : ndarray -> ndarray -> Outcome ndarray.
(** [a * 255] *)
Variable times_255 : ndarray -> ndarray.
(** [np.concatenate(arrays, axis=0)] *)
Variable concatenate : list ndarray -> Outcome ndarray.
(** [np.mean(np.argmax(np.mean(predictions, axis=1), axis=-1)
             == np.squeeze(targets))] *)
Variable ensemble_accuracy : ndarray -> ndarray -> Outcome R.
(** [a.shape[0]] *)
Variable shape0 : ndarray -> nat.
(** [transforms.ToTensor()] and the composed augmentation *)
Variable to_tensor : Transform.
Variable crop_flip_to_tensor : Transform.

(** [CustomSet] *)
Record CustomSet : Type := {
  set_data : ndarray * ndarray * ndarray;
  set_targets : ndarray;
  set_transform : Transform;
  input_size : nat
}.

(** [CustomSet.__init__] *)
Definition CustomSet_init (img predictions logits targets : ndarray)
    (transform : Transform) : CustomSet :=
  {| set_data := (img, predictions, logits);
     set_targets := targets;
     set_transform := transform;
     input_size := shape0 img |}.

(** [CustomSet.__len__] *)
Definition CustomSet_len (self : CustomSet) : nat := input_size self.

(** [Cifar10Data] *)
Record Cifar10Data : Type := {
  transform : Transform;
  set : CustomSet;
  classes : list string;
  num_classes : nat
}.

(** The four arrays appended for one corruption and one intensity. *)
Definition read_corrupted (filepath : string) (training_inds : ndarray)
    (where_ : string * string)
    : Outcome (ndarray * ndarray * ndarray * ndarray) :=
  let sub_grp := [where_.1; where_.2] in
  let^ d := h5_dataset filepath sub_grp "data" in
  let^ d := take_rows d training_inds in
  let^ p := h5_dataset filepath sub_grp "predictions" in
  let^ p := take_rows p training_inds in
  let^ l := h5_dataset filepath sub_grp "logits" in
  let^ l := take_rows l training_inds in
  let^ t := h5_dataset filepath sub_grp "targets" in
  let^ t := take_rows t training_inds in
  Returns (times_255 d, p, l, t).

(** [Cifar10Data.__init__]; the defaults are [ind=None], [train=True],
    [augmentation=False] and [corrupted=False].  With [corrupted],
    [data] is by then a tuple, so the assignment [data[0] = ...] raises
    [TypeError] once its right-hand side is computed, and the
    statements after it are not reached. *)
Definition __init__ (ind : option Index) (train augmentation corrupted : bool)
    (data_dir : string) : Outcome Cifar10Data :=
  let transform := if augmentation then crop_flip_to_tensor else to_tensor in
  let filepath := data_dir ++ "ensemble_predictions.h5" in
  let data_grp := if train then ["train"] else ["test"] in
  let^ data := h5_dataset filepath data_grp "data" in
  let^ predictions := h5_dataset filepath data_grp "predictions" in
  let^ logits := h5_dataset filepath data_grp "logits" in
  let^ targets := h5_dataset filepath data_grp "targets" in
  let^ (data, targets) :=
    match ind with
    | None => Returns ((data, predictions, logits), targets)
    | Some ind =>
        let^ d := take data ind in
        let^ p := take predictions ind in
        let^ l := take logits ind in
        let^ t := take targets ind in
        Returns ((d, p, l), t)
    end in
  let^ (data, targets) :=
    if corrupted then
      let^ training_inds := np_load (data_dir ++ "corrupted_data_indices.npy") in
      let training_inds := first_5000 training_inds in
      let corruptions := ["contrast"; "frost"; "gaussian_blur"; "impulse_noise"] in
      let filepath := data_dir ++ "ensemble_predictions_corrupted_data.h5" in
      let^ corrupted_ :=
        collect (read_corrupted filepath training_inds)
          (c ← corruptions; [(c, "intensity_1"); (c, "intensity_2")]) in
      let corrupted_data := map (fun q => q.1.1.1) corrupted_ in
      let^ inner := concatenate corrupted_data in
      let^ _ := concatenate [data.1.1; inner] in
      Throws TypeError
    else Returns (data, targets) in
  let set := CustomSet_init data.1.1 data.1.2 data.2 targets transform in
  let^ acc := ensemble_accuracy (set_data set).1.2 (set_targets set) in
  let classes := ["plane"; "car"; "bird"; "cat"; "deer"; "dog"; "frog";
                  "horse"; "ship"; "truck"] in
  Returns {| transform := transform;
             set := set;
             classes := classes;
             num_classes := length classes |}.

End Loader.

End Cifar10EnsemblePred.

(** *** More worked instances *)

Module MoreExamples.

Import Torch LogitsProbabilityDistribution.
Open Scope R_scope.

(** A model whose only layer has three outputs. *)
Definition odd_layer : Linear :=
  {| in_features := 1; out_features := 3;
     weight := [[1]; [1]; [1]]; bias := [1; 1; 1] |}.

Definition odd_model : Model :=
  {| teacher := Examples.no_teacher;
     loss := fun _ _ => Ok 0;
     output_size := 3;
     use_hard_labels := false;
     learning_rate := 1 / 1000;
     scale_teacher_logits := false;
     layers := [odd_layer];
     variance_lower_bound := 1 / 1000 |}.

(** A model without layers. *)
Definition bare_model : Model :=
  {| teacher := Examples.no_teacher;
     loss := fun _ _ => Ok 0;
     output_size := 0;
     use_hard_labels := false;
     learning_rate := 1 / 1000;
     scale_teacher_logits := false;
     layers := [];
     variance_lower_bound := 1 / 1000 |}.

(** Constructor arguments for one input, a hidden layer of three units
    and two classes. *)
Definition two_class_args : InitArgs :=
  {| arg_teacher := Examples.no_teacher;
     arg_loss_function := fun _ _ => Ok 0;
     arg_output_size := 4;
     arg_use_hard_labels := false;
     arg_learning_rate := 1 / 1000;
     arg_scale_teacher_logits := false;
     init_weight := fun l r c => INR (l + r + c);
     init_bias := fun l r => INR (l * r) |}.

(** The same arguments with a negative learning rate. *)
Definition negative_rate_args : InitArgs :=
  {| arg_teacher := Examples.no_teacher;
     arg_loss_function := fun _ _ => Ok 0;
     arg_output_size := 4;
     arg_use_hard_labels := false;
     arg_learning_rate := -1;
     arg_scale_teacher_logits := false;
     init_weight := fun l r c => INR (l + r + c);
     init_bias := fun l r => INR (l * r) |}.

(** A batch of two examples and a batch of none. *)
Definition two_inputs : Tensor2 := T2 1 [[2]; [3]].

Definition no_inputs : Tensor2 := T2 1 [].

(** The logits of [Examples.three_logits] with 10 added to each. *)
Definition shifted_logits : Tensor3 := T3 1 3 [[[1 + 10; 2 + 10; 3 + 10]]].

Definition shifted_teacher : Teacher :=
  {| get_logits := fun _ => Ok shifted_logits |}.

Definition shifted_model : Model :=
  {| teacher := shifted_teacher;
     loss := fun _ _ => Ok 0;
     output_size := 4;
     use_hard_labels := false;
     learning_rate := 1 / 1000;
     scale_teacher_logits := true;
     layers := [Examples.small_layer];
     variance_lower_bound := 1 / 1000 |}.

(** A world in which [Examples.store_file] holds three rows, the last
    one without fields, and a dataset object for it. *)
Definition stored_world : GaussianSinus.World unit :=
  {| GaussianSinus.files := {[ Examples.store_file := [[1; 2]; [3; 4]; []] ]};
     GaussianSinus.dirs := {[ ["data"%string] ]};
     GaussianSinus.random_state := tt |}.

Definition stored_dataset : GaussianSinus.Self :=
  {| GaussianSinus.n_samples := 4;
     GaussianSinus.train := true;
     GaussianSinus.file := Examples.store_file |}.

(** A world in which the stored file holds two rows of two fields. *)
Definition regular_world : GaussianSinus.World unit :=
  {| GaussianSinus.files := {[ Examples.store_file := [[1; 2]; [3; 4]] ]};
     GaussianSinus.dirs := {[ ["data"%string] ]};
     GaussianSinus.random_state := tt |}.

(** A loader of two batches, a model that predicts its inputs and a
    metric that is 1 or 1/2 according to the labels. *)
Definition two_batches : list (R * bool) := [(0, false); (0, true)].

Definition echo_predict (inputs : R) (st : unit) : Outcome (R * unit) :=
  Returns (inputs, st).

Definition label_accuracy (labels : bool) (prediction : R) : Outcome R :=
  Returns (if labels then 1 else 1 / 2).

(** A metric that fails on the labels [true]. *)
Definition failing_accuracy (labels : bool) (prediction : R) : Outcome R :=
  if labels then Throws ZeroDivisionError else Returns 1.

End MoreExamples.

(** ** Properties of the distilled model *)

Module LogitsProbabilityDistributionProofs.

Import Torch LogitsProbabilityDistribution.
Open Scope R_scope.

Lemma softplus_pos (z : R) : 0 < ln (1 + exp z).
Proof.
  rewrite <- ln_1. apply ln_increasing; [lra|].
  pose proof (exp_pos z). lra.
Qed.

Lemma rbind_Ok {A B : Type} (c : Result A) (k : A -> Result B) (b : B) :
  rbind c k = Ok b -> exists a, c = Ok a /\ k a = Ok b.
Proof. destruct c as [a|e]; simpl; [eauto | discriminate]. Qed.

(** What a successful [forward] returns, in terms of the output [y] of
    the last layer. *)
Lemma forward_Ok (self : Model) (x mean var : Tensor2) :
  forward self x = Ok (mean, var) ->
  exists h out y,
    hidden_layers (removelast (layers self)) x = Ok h /\
    last (layers self) = Some out /\
    linear out h = Ok y /\
    mean = slice_to (cols y / 2) y /\
    var = map2d (fun z => ln (1 + exp z) + variance_lower_bound self)
                (slice_from (cols y / 2) y).
Proof.
  unfold forward. intros Hf.
  apply rbind_Ok in Hf as (h & Hh & Hf).
  apply rbind_Ok in Hf as (out & Hout & Hf).
  apply rbind_Ok in Hf as (y & Hy & Hf).
  injection Hf as <- <-.
  exists h, out, y. repeat split; try assumption.
  unfold index_last in Hout. destruct (last (layers self)); congruence.
Qed.

(** The variance is above the floor whatever the floor is. *)
Lemma forward_variance_above_floor (self : Model) (x mean var : Tensor2) :
  forward self x = Ok (mean, var) ->
  Forall (Forall (fun v => variance_lower_bound self < v)) (rows var).
Proof.
  intros Hf. apply forward_Ok in Hf as (h & out & y & _ & _ & _ & _ & ->).
  simpl. apply Forall_fmap, Forall_true. intros r.
  apply Forall_fmap, Forall_true. intros z. simpl.
  pose proof (softplus_pos z). lra.
Qed.

(** The constructor sets the floor to [0.001]. *)
Lemma init_variance_lower_bound (layer_sizes : list nat) (a : InitArgs)
    (self : Model) :
  __init__ layer_sizes a = Ok self -> variance_lower_bound self = 1 / 1000.
Proof.
  unfold __init__. intros Hi.
  apply rbind_Ok in Hi as (ls & _ & Hi).
  apply rbind_Ok in Hi as (_ & _ & Hi). injection Hi as <-. reflexivity.
Qed.

(** C1. For every input batch [x], every entry of the variance returned
    by [forward] is at least the configured lower bound [0.001], and
    so strictly positive. *)
Theorem forward_variance_lower_bound (self : Model) (x mean var : Tensor2) :
  variance_lower_bound self = 1 / 1000 ->
  forward self x = Ok (mean, var) ->
  Forall (Forall (fun v => 1 / 1000 <= v /\ 0 < v)) (rows var).
Proof.
  intros Hb Hf. apply forward_variance_above_floor in Hf.
  rewrite Hb in Hf.
  eapply Forall_impl; [exact Hf|]. intros r Hr.
  eapply Forall_impl; [exact Hr|]. intros v Hv. simpl in Hv. lra.
Qed.

Lemma forward_variance_lower_bound_witness :
  exists mean var,
    forward Examples.small_model Examples.small_input = Ok (mean, var) /\
    rows var = [[ln (1 + exp (2 * -1 + 0 + 0)) + 1 / 1000]] /\
    Forall (Forall (fun v => 1 / 1000 <= v /\ 0 < v)) (rows var).
Proof.
  eexists. eexists. split; [reflexivity|]. split; [reflexivity|].
  apply (forward_variance_lower_bound Examples.small_model Examples.small_input
           (slice_to 1 (T2 2 [[2 * 1 + 0 + 1 / 2; 2 * -1 + 0 + 0]])));
    reflexivity.
Defined.

(** *** Loops and shapes *)

(** A loop over [range(n)] whose body keeps an invariant runs to its
    end and establishes the invariant at [n]. *)
Lemma for_each_seq_inv {St : Type} (P : nat -> St -> Prop)
    (body : nat -> St -> Result St) (n a : nat) (s : St) :
  P a s ->
  (forall i s, (a <= i < a + n)%nat -> P i s ->
     exists s', body i s = Ok s' /\ P (S i) s') ->
  exists s', for_each (seq a n) body s = Ok s' /\ P (a + n)%nat s'.
Proof.
  revert a s. induction n as [|n IH]; intros a s Ha Hstep; simpl.
  - exists s. rewrite Nat.add_0_r. auto.
  - destruct (Hstep a s) as (s1 & -> & H1); [lia | assumption |]. simpl.
    destruct (IH (S a) s1) as (s2 & Hs2 & H2); [assumption | |].
    + intros i s' Hi. apply Hstep. lia.
    + exists s2. split; [assumption|]. now rewrite Nat.add_succ_r.
Qed.

Lemma for_each_range_inv {St : Type} (P : nat -> St -> Prop)
    (body : nat -> St -> Result St) (n : nat) (s : St) :
  P 0%nat s ->
  (forall i s, (i < n)%nat -> P i s -> exists s', body i s = Ok s' /\ P (S i) s') ->
  exists s', for_each (range n) body s = Ok s' /\ P n s'.
Proof.
  intros H0 Hstep.
  destruct (for_each_seq_inv P body n 0 s) as (s' & Hs' & HP); [assumption | |].
  - intros i s0 Hi. apply Hstep. lia.
  - exists s'. split; assumption.
Qed.

Lemma chain_snoc (n : nat) (ls : list Linear) (l : Linear) (w : nat) :
  chain n (ls ++ [l]) = Some w ->
  exists n', chain n ls = Some n' /\ in_features l = n' /\ out_features l = w.
Proof.
  revert n. induction ls as [|l0 ls IH]; intros n; simpl.
  - destruct (Nat.eqb_spec (in_features l) n); [|discriminate].
    intros [= <-]. exists n. auto.
  - destruct (Nat.eqb (in_features l0) n); [apply IH | discriminate].
Qed.

Lemma hidden_layers_total (ls : list Linear) (x : Tensor2) (n' : nat) :
  chain (cols x) ls = Some n' ->
  exists h, hidden_layers ls x = Ok h /\ cols h = n' /\
            length (rows h) = length (rows x).
Proof.
  revert x. induction ls as [|l ls IH]; intros x; simpl.
  - intros [= <-]. exists x. auto.
  - unfold linear. rewrite (Nat.eqb_sym (cols x)).
    destruct (Nat.eqb (in_features l) (cols x)); [|discriminate].
    intros Hc. simpl.
    match goal with |- context [hidden_layers ls ?y] =>
      destruct (IH y) as (h & Hh & Hcols & Hlen); [exact Hc|] end.
    exists h. split; [assumption|]. split; [assumption|].
    rewrite Hlen. simpl. now rewrite !length_map.
Qed.

Lemma linear_total (l : Linear) (x : Tensor2) :
  wf_linear l -> cols x = in_features l ->
  exists y, linear l x = Ok y /\ cols y = out_features l /\ wf2 y /\
            length (rows y) = length (rows x).
Proof.
  intros (Hw & _ & Hb) Hc. unfold linear. rewrite Hc, Nat.eqb_refl.
  eexists. split; [reflexivity|]. simpl. split; [reflexivity|]. split.
  - unfold wf2. simpl. apply Forall_fmap, Forall_true. intros r. simpl.
    rewrite length_zip_with. lia.
  - now rewrite length_map.
Qed.

(** On a well-formed model [forward] returns, and splits the output
    [y] of the last layer into two halves of [num_classes] columns. *)
Lemma forward_total (self : Model) (x : Tensor2) (num_classes : nat) :
  wf_model self (cols x) num_classes ->
  exists y,
    forward self x =
      Ok (slice_to num_classes y,
          map2d (fun z => ln (1 + exp z) + variance_lower_bound self)
                (slice_from num_classes y)) /\
    cols y = (2 * num_classes)%nat /\ wf2 y /\
    length (rows y) = length (rows x).
Proof.
  intros (Hne & Hwf & Hchain & Hout & _). unfold forward.
  destruct (layers self) as [|out ls _] using rev_ind; [congruence|].
  rewrite removelast_last.
  apply chain_snoc in Hchain as (n' & Hch & Hin & Hw).
  destruct (hidden_layers_total ls x n' Hch) as (h & -> & Hcols & Hlen).
  unfold index_last. rewrite last_snoc. cbn [rbind].
  rewrite Forall_app, Forall_singleton in Hwf. destruct Hwf as [_ Hwf].
  destruct (linear_total out h Hwf) as (y & -> & Hcy & Hwy & Hly); [congruence|].
  cbn [rbind]. exists y. rewrite Hcy, Hw, Hout.
  assert (Hdiv : (2 * num_classes / 2)%nat = num_classes)
    by (rewrite Nat.mul_comm; apply Nat.div_mul; lia).
  rewrite Hdiv. repeat split; try assumption. congruence.
Qed.

(** *** The sampling loop *)

Lemma length_range (n : nat) : length (range n) = n.
Proof. apply length_seq. Qed.

Lemma expand_same {A : Type} (n : nat) (d : A) (l : list A) :
  length l = n -> expand n d l = l.
Proof. intros <-. unfold expand. now rewrite Nat.eqb_refl. Qed.

Lemma forallb_positive (v : list R) :
  Forall (fun x => 0 < x) v -> forallb positive v = true.
Proof.
  induction 1 as [|x v Hx _ IH]; simpl; [reflexivity|].
  rewrite IH. unfold positive. destruct (Rlt_dec 0 x); [reflexivity | contradiction].
Qed.

Lemma gaussian_draws_length (g : Generator) (n k i : nat) (mean_i var_i : list R) :
  length mean_i = k -> length var_i = k ->
  length (gaussian_draws g n k i mean_i var_i) = n /\
  Forall (fun r => length r = k) (gaussian_draws g n k i mean_i var_i).
Proof.
  intros Hm Hv. unfold gaussian_draws, range. split.
  - now rewrite length_map, length_seq.
  - apply Forall_fmap, Forall_true. intros j. simpl.
    rewrite !length_zip_with, !length_map, length_seq. lia.
Qed.

Lemma gaussian_draws_shift (g : Generator) (n k i : nat) (mean_i var_i : list R) :
  gaussian_draws {| stream := stream g; position := (position g + i * n * k)%nat |}
                 n k 0 mean_i var_i
  = gaussian_draws g n k i mean_i var_i.
Proof.
  unfold gaussian_draws. apply map_ext. intros j. do 2 f_equal.
  apply map_ext. intros c. simpl. f_equal. lia.
Qed.

Lemma sampling_step_Ok (mean var : Tensor2) (n k i : nat) (samples : Tensor3)
    (g : Generator) (mean_i var_i : list R) :
  rows mean !! i = Some mean_i -> rows var !! i = Some var_i ->
  length mean_i = k -> length var_i = k -> Forall (fun v => 0 < v) var_i ->
  dim1 samples = n -> dim2 samples = k -> (i < length (cells samples))%nat ->
  sampling_step mean var n i (samples, g) =
  Ok (T3 n k (<[i := gaussian_draws g n k 0 mean_i var_i]> (cells samples)),
      {| stream := stream g; position := (position g + n * k)%nat |}).
Proof.
  intros Hm Hv Hlm Hlv Hpos Hd1 Hd2 Hi.
  unfold sampling_step, index. rewrite Hm, Hv. cbn [rbind].
  unfold MultivariateNormal_diag. rewrite (forallb_positive _ Hpos). cbn [rbind].
  unfold rsample, standard_normal. cbn [loc scale cols rows].
  rewrite length_map, Hlm, Hlv, Nat.eqb_refl. cbn [rbind].
  unfold set_item. cbn [cols rows].
  apply Nat.ltb_lt in Hi. rewrite Hi. cbn [negb].
  unfold broadcastable. rewrite Hd1, Hd2, !length_map, length_range.
  rewrite !Nat.eqb_refl. cbn [orb andb rbind].
  assert (Hdraws :
    map (fun e => zip_with Rplus mean_i (zip_with Rmult (map sqrt var_i) e))
        (map (fun j => map (fun c => stream g (position g + (j * k + c))%nat)
                           (range k)) (range n))
    = gaussian_draws g n k 0 mean_i var_i).
  { unfold gaussian_draws. rewrite map_map. apply map_ext. intros j.
    do 2 f_equal. }
  rewrite Hdraws.
  destruct (gaussian_draws_length g n k 0 mean_i var_i Hlm Hlv) as [Hl1 Hl2].
  assert (Hexp : map (expand k 0) (gaussian_draws g n k 0 mean_i var_i)
                 = gaussian_draws g n k 0 mean_i var_i).
  { rewrite <- (map_id (gaussian_draws g n k 0 mean_i var_i)) at 2.
    apply Forall_fmap_ext_1. eapply Forall_impl; [exact Hl2|].
    intros r Hr. now apply expand_same. }
  rewrite Hexp, (expand_same n) by exact Hl1. reflexivity.
Qed.

Lemma sampling_loop_total (g : Generator) (mean var : Tensor2) (b n k : nat) :
  length (rows mean) = b -> length (rows var) = b ->
  Forall (fun r => length r = k) (rows mean) ->
  Forall (fun r => length r = k /\ Forall (fun v => 0 < v) r) (rows var) ->
  exists st,
    for_each (range b) (sampling_step mean var n) (zeros b n k, g) = Ok st /\
    sampling_inv g mean var b n k b st.
Proof.
  intros Hbm Hbv Hm Hv.
  apply (for_each_range_inv (sampling_inv g mean var b n k)).
  - unfold sampling_inv, zeros. simpl. rewrite length_replicate.
    repeat split; try reflexivity.
    + destruct g. simpl. f_equal. lia.
    + intros i' ? ? Hi'. lia.
  - intros i [samples g'] Hi (Hd1 & Hd2 & Hlen & Hg & Hdone). simpl in *.
    destruct (lookup_lt_is_Some_2 (rows mean) i) as [mean_i Hmi]; [lia|].
    destruct (lookup_lt_is_Some_2 (rows var) i) as [var_i Hvi]; [lia|].
    pose proof (Forall_lookup_1 _ _ _ _ Hm Hmi) as Hlm.
    pose proof (Forall_lookup_1 _ _ _ _ Hv Hvi) as [Hlv Hpos]. simpl in Hlm.
    eexists. split.
    + apply (sampling_step_Ok mean var n k i samples g' mean_i var_i);
        try assumption. lia.
    + unfold sampling_inv. simpl. rewrite length_insert.
      repeat split; try assumption; try reflexivity.
      * rewrite Hg. simpl. f_equal. lia.
      * intros i' mi vi Hi' Hmi' Hvi'.
        destruct (decide (i' = i)) as [->|Hne].
        -- rewrite list_lookup_insert_eq by lia.
           rewrite Hmi in Hmi'. rewrite Hvi in Hvi'.
           injection Hmi' as <-. injection Hvi' as <-.
           rewrite Hg. now rewrite gaussian_draws_shift.
        -- rewrite list_lookup_insert_ne by congruence.
           apply Hdone; [lia | assumption | assumption].
Qed.

(** On a well-formed model [predict_logits] returns a tensor of shape
    [(batch, num_samples, num_classes)] whose slice [i] holds the draws
    [mean_i + sqrt(var_i) * noise] of example [i], and leaves the
    generator [batch * num_samples * num_classes] draws further. *)
Lemma predict_logits_total (self : Model) (input_ : Tensor2)
    (num_samples : option nat) (g : Generator) (num_classes : nat) :
  wf_model self (cols input_) num_classes ->
  exists mean var samples,
    forward self input_ = Ok (mean, var) /\
    predict_logits self input_ num_samples g =
      Ok (samples,
          {| stream := stream g;
             position := (position g + size0 input_ * default 50%nat num_samples
                                       * num_classes)%nat |}) /\
    shape3 samples = (size0 input_, default 50%nat num_samples, num_classes) /\
    wf3 samples /\
    forall i mean_i var_i,
      rows mean !! i = Some mean_i -> rows var !! i = Some var_i ->
      cells samples !! i =
        Some (gaussian_draws g (default 50%nat num_samples) num_classes i
                mean_i var_i).
Proof.
  intros Hwf.
  destruct (forward_total self input_ num_classes Hwf)
    as (y & Hf & Hcy & Hwy & Hly).
  destruct Hwf as (_ & _ & _ & Hout & Hfloor).
  set (n := default 50%nat num_samples).
  set (mean := slice_to num_classes y) in *.
  set (var := map2d (fun z => ln (1 + exp z) + variance_lower_bound self)
                    (slice_from num_classes y)) in *.
  assert (Hbm : length (rows mean) = size0 input_).
  { unfold mean, size0. simpl. now rewrite length_map. }
  assert (Hbv : length (rows var) = size0 input_).
  { unfold var, size0. simpl. now rewrite !length_map. }
  assert (Hm : Forall (fun r => length r = num_classes) (rows mean)).
  { unfold mean. simpl. apply Forall_fmap.
    eapply Forall_impl; [exact Hwy|]. intros r Hr. simpl in *.
    rewrite length_take. lia. }
  assert (Hv : Forall (fun r => length r = num_classes /\ Forall (fun v => 0 < v) r)
                      (rows var)).
  { unfold var. simpl. rewrite map_map. apply Forall_fmap.
    eapply Forall_impl; [exact Hwy|]. intros r Hr. simpl in *. split.
    - rewrite length_map, length_drop. lia.
    - apply Forall_fmap, Forall_true. intros z. simpl.
      pose proof (softplus_pos z). lra. }
  destruct (sampling_loop_total g mean var (size0 input_) n num_classes
              Hbm Hbv Hm Hv) as ([samples g'] & Hloop & Hd1 & Hd2 & Hlen & Hg & Hdone).
  simpl in Hd1, Hd2, Hlen, Hg, Hdone.
  exists mean, var, samples. split; [exact Hf|]. split.
  - unfold predict_logits. rewrite Hf. cbn [rbind].
    rewrite Hout.
    assert (Hdiv : (2 * num_classes / 2)%nat = num_classes)
      by (rewrite Nat.mul_comm; apply Nat.div_mul; lia).
    rewrite Hdiv.
    change (rbind (for_each (range (size0 input_)) (sampling_step mean var n)
                     (zeros (size0 input_) n num_classes, g))
              (fun '(samples, g) => Ok (samples, g))
            = Ok (samples,
                  {| stream := stream g;
                     position := (position g + size0 input_ * n * num_classes)%nat |})).
    rewrite Hloop. cbn [rbind]. now rewrite Hg.
  - split; [unfold shape3; congruence|]. split.
    + unfold wf3. rewrite Hd1, Hd2. apply Forall_lookup_2. intros i e He.
      assert (Hi : (i < size0 input_)%nat)
        by (rewrite <- Hlen; eapply lookup_lt_Some; exact He).
      destruct (lookup_lt_is_Some_2 (rows mean) i) as [mean_i Hmi]; [lia|].
      destruct (lookup_lt_is_Some_2 (rows var) i) as [var_i Hvi]; [lia|].
      rewrite (Hdone i mean_i var_i Hi Hmi Hvi) in He. injection He as <-.
      apply gaussian_draws_length.
      * exact (Forall_lookup_1 _ _ _ _ Hm Hmi).
      * exact (proj1 (Forall_lookup_1 _ _ _ _ Hv Hvi)).
    + intros i mean_i var_i Hmi Hvi. apply Hdone; try assumption.
      rewrite <- Hbm. eapply lookup_lt_Some. exact Hmi.
Qed.

(** Whatever a loop that returns has kept at every step holds at its
    end. *)
Lemma for_each_preserves {St : Type} (P : St -> Prop) (idx : list nat)
    (body : nat -> St -> Result St) (s s' : St) :
  (forall i s s', body i s = Ok s' -> P s -> P s') ->
  for_each idx body s = Ok s' -> P s -> P s'.
Proof.
  intros Hstep. revert s. induction idx as [|i idx IH]; intros s; simpl.
  - now intros [= <-].
  - intros Hrun Hs. apply rbind_Ok in Hrun as (s1 & H1 & Hrun).
    apply (IH s1 Hrun). exact (Hstep i s s1 H1 Hs).
Qed.

Lemma set_item_shape (t t' : Tensor3) (i : nat) (v : Tensor2) :
  set_item t i v = Ok t' -> shape3 t' = shape3 t.
Proof.
  unfold set_item. destruct (negb _); [discriminate|].
  destruct (_ && _); [|discriminate].
  intros [= <-]. unfold shape3. simpl. now rewrite length_insert.
Qed.

Lemma sampling_step_shape (mean var : Tensor2) (n i : nat)
    (st st' : Tensor3 * Generator) :
  sampling_step mean var n i st = Ok st' -> shape3 st'.1 = shape3 st.1.
Proof.
  destruct st as [samples g]. unfold sampling_step. intros Hs.
  apply rbind_Ok in Hs as (mean_i & _ & Hs).
  apply rbind_Ok in Hs as (var_i & _ & Hs).
  apply rbind_Ok in Hs as (rv & _ & Hs).
  apply rbind_Ok in Hs as ([draws g1] & _ & Hs).
  apply rbind_Ok in Hs as (samples' & Hset & Hs).
  injection Hs as <-. simpl. exact (set_item_shape _ _ _ _ Hset).
Qed.

(** Whenever [predict_logits] returns, its result has the shape of the
    tensor of zeros it starts from. *)
Lemma predict_logits_shape (self : Model) (input_ : Tensor2)
    (num_samples : option nat) (g g' : Generator) (samples : Tensor3) :
  predict_logits self input_ num_samples g = Ok (samples, g') ->
  shape3 samples =
    (size0 input_, default 50%nat num_samples, (output_size self / 2)%nat).
Proof.
  unfold predict_logits. intros Hp.
  apply rbind_Ok in Hp as ([mean var] & _ & Hp).
  apply rbind_Ok in Hp as ([samples' g1] & Hloop & Hp).
  injection Hp as -> ->.
  apply (for_each_preserves
           (fun st => shape3 st.1 =
              (size0 input_, default 50%nat num_samples,
               (output_size self / 2)%nat))) in Hloop.
  - exact Hloop.
  - intros i [s1 g1] s2 Hstep Hs. cbn [fst] in Hs.
    rewrite <- Hs.
    apply (sampling_step_shape mean var (default 50%nat num_samples) i (s1, g1) s2).
    exact Hstep.
  - unfold shape3, zeros. cbn [fst cells dim1 dim2].
    now rewrite length_replicate.
Qed.

(** *** The two sampling methods *)

Lemma zip_with_map_both {A B C D : Type} (f : B -> C -> D) (g : A -> B)
    (h : A -> C) (l : list A) :
  zip_with f (map g l) (map h l) = map (fun a => f (g a) (h a)) l.
Proof. induction l as [|a l IH]; simpl; [reflexivity | now rewrite IH]. Qed.

(** The tensor expression of [predict] is the transform of the spec
    applied to every draw. *)
Lemma softmax_samples_eq (samples : Tensor3) :
  broadcast_last Rdiv (map3d exp samples)
    (map3d (fun v => v + 1) (sum_keepdim (map3d exp samples)))
  = softmax_like_samples samples.
Proof.
  unfold broadcast_last, softmax_like_samples, map3d, sum_keepdim. simpl.
  f_equal. rewrite !map_map, zip_with_map_both.
  apply map_ext. intros e.
  rewrite !map_map, zip_with_map_both.
  apply map_ext. intros r. simpl.
  unfold softmax_like. rewrite map_map. reflexivity.
Qed.

(** [predict] written over [predict_logits]. *)
Lemma predict_unfold (self : Model) (input_ : Tensor2)
    (num_samples : option nat) (g : Generator) :
  predict self input_ num_samples g =
  let* (samples, g') := predict_logits self input_ num_samples g in
  Ok (softmax_like_samples samples, g').
Proof.
  unfold predict, predict_logits.
  destruct (forward self input_) as [[mean var]|e]; simpl; [|reflexivity].
  match goal with
  | |- rbind ?loop _ = _ => destruct loop as [[samples g']|e]
  end; simpl; [|reflexivity].
  now rewrite softmax_samples_eq.
Qed.

Lemma predict_Ok (self : Model) (input_ : Tensor2) (num_samples : option nat)
    (g g' : Generator) (t : Tensor3) :
  predict self input_ num_samples g = Ok (t, g') ->
  exists samples,
    predict_logits self input_ num_samples g = Ok (samples, g') /\
    t = softmax_like_samples samples.
Proof.
  rewrite predict_unfold. intros Hp.
  apply rbind_Ok in Hp as ([samples g1] & Hpl & Hp).
  injection Hp as <- <-. exists samples. auto.
Qed.

(** *** The transform of a draw *)

Lemma sum_exp_nonneg (s : list R) : 0 <= sum (map exp s).
Proof.
  induction s as [|x s IH]; simpl; [lra|].
  pose proof (exp_pos x). lra.
Qed.





Lemma small_model_wf : wf_model Examples.small_model 1 1.
Proof.
  unfold wf_model. simpl. split; [discriminate|]. split.
  - apply Forall_singleton. unfold wf_linear. simpl.
    split; [reflexivity|]. split; [|reflexivity].
    repeat constructor.
  - split; [reflexivity|]. split; [reflexivity|]. lra.
Qed.





(** C4. For a batch of size [B] and a sample count [S], whatever
    [predict] returns has shape [(B, S, num_classes)], where
    [num_classes] is [output_size / 2], and its entries come from the
    raw Gaussian draws [s], which are what [predict_logits] returns, by
    [exp(s_k) / (sum_j exp(s_j) + 1)]; and on a model whose layers fit
    the input, [predict] does return, the draws of example [i] being
    [mean_i + sqrt(var_i) * noise]. *)
Theorem predict_shape_and_entries (self : Model) (input_ : Tensor2)
    (num_samples : option nat) (g : Generator) :
  (forall t g',
     predict self input_ num_samples g = Ok (t, g') ->
     shape3 t = (size0 input_, default 50%nat num_samples,
                 (output_size self / 2)%nat) /\
     exists samples,
       predict_logits self input_ num_samples g = Ok (samples, g') /\
       shape3 samples = shape3 t /\
       forall i j k e s s_k,
         cells samples !! i = Some e -> e !! j = Some s -> s !! k = Some s_k ->
         exists e' p,
           cells t !! i = Some e' /\ e' !! j = Some p /\
           p !! k = Some (exp s_k / (sum (map exp s) + 1))) /\
  (forall num_classes,
     wf_model self (cols input_) num_classes ->
     exists mean var samples t g',
       forward self input_ = Ok (mean, var) /\
       predict_logits self input_ num_samples g = Ok (samples, g') /\
       predict self input_ num_samples g = Ok (t, g') /\
       shape3 t = (size0 input_, default 50%nat num_samples, num_classes) /\
       wf3 t /\
       forall i mean_i var_i,
         rows mean !! i = Some mean_i -> rows var !! i = Some var_i ->
         cells samples !! i =
           Some (gaussian_draws g (default 50%nat num_samples) num_classes i
                   mean_i var_i)).
Proof.
  split.
  - intros t g' Hp. apply predict_Ok in Hp as (samples & Hpl & ->).
    pose proof (predict_logits_shape _ _ _ _ _ _ Hpl) as Hshape.
    assert (Hsame : shape3 (softmax_like_samples samples) = shape3 samples).
    { unfold shape3. simpl. now rewrite length_map. }
    split; [now rewrite Hsame|].
    exists samples. split; [exact Hpl|]. split; [now rewrite Hsame|].
    intros i j k e s s_k He Hs Hk.
    exists (map softmax_like e), (softmax_like s). simpl.
    rewrite !list_lookup_fmap, He. simpl. split; [reflexivity|].
    rewrite Hs. simpl. split; [reflexivity|].
    unfold softmax_like. rewrite list_lookup_fmap, Hk. reflexivity.
  - intros num_classes Hwf.
    destruct (predict_logits_total self input_ num_samples g num_classes Hwf)
      as (mean & var & samples & Hf & Hpl & Hshape & Hwf3 & Hdraws).
    exists mean, var, samples, (softmax_like_samples samples). eexists.
    split; [exact Hf|]. split; [exact Hpl|].
    split; [rewrite predict_unfold, Hpl; reflexivity|].
    split; [|split; [|exact Hdraws]].
    + unfold shape3 in *. simpl. rewrite length_map. exact Hshape.
    + unfold wf3 in *. simpl. apply Forall_fmap.
      eapply Forall_impl; [exact Hwf3|]. intros e [He Hrows]. simpl.
      rewrite length_map. split; [exact He|].
      apply Forall_fmap. eapply Forall_impl; [exact Hrows|].
      intros s Hs. simpl. unfold softmax_like. now rewrite length_map.
Qed.

Lemma predict_shape_and_entries_witness :
  (exists t g',
     predict Examples.small_model Examples.small_input (Some 3%nat)
             Examples.counting_noise = Ok (t, g') /\
     shape3 t = (1%nat, 3%nat, 1%nat) /\
     exists samples,
       predict_logits Examples.small_model Examples.small_input (Some 3%nat)
                      Examples.counting_noise = Ok (samples, g') /\
       shape3 samples = shape3 t /\
       forall i j k e s s_k,
         cells samples !! i = Some e -> e !! j = Some s -> s !! k = Some s_k ->
         exists e' p,
           cells t !! i = Some e' /\ e' !! j = Some p /\
           p !! k = Some (exp s_k / (sum (map exp s) + 1))) /\
  (exists mean var samples t g',
     forward Examples.small_model Examples.small_input = Ok (mean, var) /\
     predict_logits Examples.small_model Examples.small_input (Some 3%nat)
                    Examples.counting_noise = Ok (samples, g') /\
     predict Examples.small_model Examples.small_input (Some 3%nat)
             Examples.counting_noise = Ok (t, g') /\
     shape3 t = (1%nat, 3%nat, 1%nat) /\
     wf3 t /\
     forall i mean_i var_i,
       rows mean !! i = Some mean_i -> rows var !! i = Some var_i ->
       cells samples !! i =
         Some (gaussian_draws Examples.counting_noise 3 1 i mean_i var_i)).
Proof.
  pose proof (predict_shape_and_entries Examples.small_model Examples.small_input
                (Some 3%nat) Examples.counting_noise) as [Hpart Htotal].
  destruct (Htotal 1%nat small_model_wf)
    as (mean & var & samples & t & g' & Hf & Hpl & Hp & Hshape & Hwf & Hdraws).
  split.
  - exists t, g'. split; [exact Hp|]. exact (Hpart t g' Hp).
  - exists mean, var, samples, t, g'. auto 10.
Defined.

(** C7. [predict_logits] runs the sampling procedure of [predict] and
    returns the raw draws: from the same state of the generator,
    [predict] is the softmax-like transform of the result of
    [predict_logits], with the same state of the generator afterwards,
    and one raises exactly when the other does, with the same
    exception. *)
Theorem predict_transforms_predict_logits (self : Model) (input_ : Tensor2)
    (num_samples : option nat) (g : Generator) :
  predict self input_ num_samples g =
  match predict_logits self input_ num_samples g with
  | Ok (samples, g') => Ok (softmax_like_samples samples, g')
  | Raise e => Raise e
  end.
Proof.
  rewrite predict_unfold.
  destruct (predict_logits self input_ num_samples g) as [[samples g']|e];
    reflexivity.
Qed.

(** C8. With [num_samples] left at [None], [predict] and
    [predict_logits] do what they do for [num_samples = 50]. *)
Theorem default_num_samples (self : Model) (input_ : Tensor2) (g : Generator) :
  predict self input_ None g = predict self input_ (Some 50%nat) g /\
  predict_logits self input_ None g = predict_logits self input_ (Some 50%nat) g.
Proof. split; reflexivity. Qed.

(** C9. [calculate_loss] returns [loss(outputs, teacher_predictions)]
    whatever the labels and whatever [use_hard_labels]: two runs that
    differ in these two values only agree on the loss, on [forward] and
    on both sampling methods, and the constructor passes the flag to
    the attribute without any other effect. *)
Theorem labels_and_hard_label_flag_ignored (self : Model) (b : bool)
    (outputs : Tensor2 * Tensor2) (teacher_predictions : Tensor3)
    (labels labels' : option (list nat)) (x : Tensor2)
    (num_samples : option nat) (g : Generator)
    (layer_sizes : list nat) (a : InitArgs) :
  calculate_loss self outputs teacher_predictions labels
    = loss self outputs teacher_predictions /\
  calculate_loss (with_use_hard_labels b self) outputs teacher_predictions labels'
    = calculate_loss self outputs teacher_predictions labels /\
  forward (with_use_hard_labels b self) x = forward self x /\
  predict (with_use_hard_labels b self) x num_samples g
    = predict self x num_samples g /\
  predict_logits (with_use_hard_labels b self) x num_samples g
    = predict_logits self x num_samples g /\
  __init__ layer_sizes (with_arg_use_hard_labels b a)
    = rmap (with_use_hard_labels b) (__init__ layer_sizes a).
Proof.
  repeat split; try reflexivity.
  unfold __init__, rmap. simpl.
  match goal with
  | |- rbind ?loop _ = _ => destruct loop as [ls|e]
  end; [|reflexivity].
  cbn [rbind]. destruct (Adam ls (arg_learning_rate a)); reflexivity.
Qed.

(** *** Centring of the teacher's logits *)

Lemma zip_with_map_r {A B C : Type} (f : A -> B -> C) (h : A -> B) (l : list A) :
  zip_with f l (map h l) = map (fun a => f a (h a)) l.
Proof. induction l as [|a l IH]; simpl; [reflexivity | now rewrite IH]. Qed.

Lemma scaled_logits_eq (t : Tensor3) :
  broadcast_last Rminus t
    (stack_last (T2 (dim1 t) (map (map (fun r => default 0 (last r))) (cells t))))
  = centred_logits t.
Proof.
  unfold broadcast_last, stack_last, centred_logits. simpl. f_equal.
  rewrite map_map, zip_with_map_r. apply map_ext. intros e.
  rewrite map_map, zip_with_map_r. reflexivity.
Qed.

Lemma generate_teacher_predictions_scaled (self : Model) (inputs : Tensor2)
    (logits : Tensor3) :
  scale_teacher_logits self = true ->
  get_logits (teacher self) inputs = Ok logits ->
  dim2 logits <> 0%nat ->
  _generate_teacher_predictions self inputs = Ok (drop_last (centred_logits logits)).
Proof.
  intros Hs Hl Hk. unfold _generate_teacher_predictions.
  rewrite Hl, Hs. cbn [rbind]. unfold select_last.
  destruct (Nat.eqb_spec (dim2 logits) 0); [contradiction|]. cbn [rbind].
  now rewrite scaled_logits_eq.
Qed.

(** C5. With [scale_teacher_logits=True], for every input
    batch on which the teacher returns logits over [num_classes >= 1]
    classes, the last class's logit is subtracted from every logit,
    which makes the centred logit of class index [num_classes-1]
    identically zero, and that column is then dropped: the returned
    tensor has width [num_classes-1] and holds, for every class index
    [k < num_classes-1], the logit of class [k] minus the logit of the
    last class. *)
Theorem centred_teacher_logits (self : Model) (inputs : Tensor2)
    (logits : Tensor3) (num_classes : nat) :
  scale_teacher_logits self = true ->
  get_logits (teacher self) inputs = Ok logits ->
  wf3 logits -> dim2 logits = num_classes -> (1 <= num_classes)%nat ->
  exists returned,
    _generate_teacher_predictions self inputs = Ok returned /\
    returned = drop_last (centred_logits logits) /\
    Forall (Forall (fun r => r !! (num_classes - 1)%nat = Some 0))
           (cells (centred_logits logits)) /\
    shape3 returned = (length (cells logits), dim1 logits, (num_classes - 1)%nat) /\
    wf3 returned /\
    forall i j k e r z v,
      cells logits !! i = Some e -> e !! j = Some r ->
      r !! (num_classes - 1)%nat = Some z ->
      (k < num_classes - 1)%nat -> r !! k = Some v ->
      exists e' r',
        cells returned !! i = Some e' /\ e' !! j = Some r' /\
        r' !! k = Some (v - z).
Proof.
  intros Hs Hl Hwf Hk Hpos.
  exists (drop_last (centred_logits logits)).
  split; [apply generate_teacher_predictions_scaled; [assumption..|lia]|].
  split; [reflexivity|].
  assert (Hlast : forall r : list R, length r = num_classes ->
            exists z, last r = Some z /\ r !! (num_classes - 1)%nat = Some z).
  { intros r Hr. destruct (lookup_lt_is_Some_2 r (num_classes - 1)) as [z Hz]; [lia|].
    exists z. split; [|exact Hz]. rewrite last_lookup, Hr.
    now replace (Nat.pred num_classes) with (num_classes - 1)%nat by lia. }
  split; [|split; [|split]].
  - simpl. apply Forall_fmap. eapply Forall_impl; [exact Hwf|].
    intros e [_ He]. simpl. apply Forall_fmap.
    eapply Forall_impl; [exact He|]. intros r Hr. simpl in *.
    destruct (Hlast r) as (z & Hz & Hz'); [congruence|].
    rewrite list_lookup_fmap, Hz, Hz'. simpl. f_equal. ring.
  - unfold shape3. simpl. rewrite !length_map. now rewrite Hk.
  - unfold wf3 in *. simpl. rewrite map_map. apply Forall_fmap.
    eapply Forall_impl; [exact Hwf|]. intros e [He Hrows]. simpl.
    rewrite !length_map. split; [exact He|].
    rewrite map_map. apply Forall_fmap.
    eapply Forall_impl; [exact Hrows|]. intros r Hr. simpl in *.
    rewrite removelast_firstn_len, length_take, length_map. lia.
  - intros i j k e r z v He Hr Hz Hlt Hv.
    pose proof (Forall_lookup_1 _ _ _ _ Hwf He) as [_ Hrows].
    pose proof (Forall_lookup_1 _ _ _ _ Hrows Hr) as Hlen. simpl in Hlen.
    destruct (Hlast r) as (z' & Hz' & Hz''); [congruence|].
    assert (z' = z) as -> by congruence.
    eexists. eexists. simpl. rewrite !map_map, list_lookup_fmap, He. simpl.
    split; [reflexivity|]. rewrite !map_map, list_lookup_fmap, Hr. simpl.
    split; [reflexivity|].
    rewrite removelast_firstn_len, length_map, lookup_take_lt by lia.
    now rewrite list_lookup_fmap, Hv, Hz'.
Qed.

Lemma centred_teacher_logits_witness :
  exists returned,
    _generate_teacher_predictions Examples.centring_model Examples.small_input
      = Ok returned /\
    returned = drop_last (centred_logits Examples.three_logits) /\
    Forall (Forall (fun r => r !! (3 - 1)%nat = Some 0))
           (cells (centred_logits Examples.three_logits)) /\
    shape3 returned = (1%nat, 1%nat, (3 - 1)%nat) /\
    wf3 returned /\
    forall i j k e r z v,
      cells Examples.three_logits !! i = Some e -> e !! j = Some r ->
      r !! (3 - 1)%nat = Some z ->
      (k < 3 - 1)%nat -> r !! k = Some v ->
      exists e' r',
        cells returned !! i = Some e' /\ e' !! j = Some r' /\
        r' !! k = Some (v - z).
Proof.
  apply (centred_teacher_logits Examples.centring_model Examples.small_input
           Examples.three_logits 3).
  - reflexivity.
  - reflexivity.
  - repeat constructor.
  - reflexivity.
  - lia.
Defined.

(** *** Construction *)

(** The constructor's loop builds one layer per pair of consecutive
    sizes, for any list of sizes. *)
Lemma init_layers_total (layer_sizes : list nat) (a : InitArgs) :
  exists ls,
    for_each (range (length layer_sizes - 1))
      (fun i (ls : list Linear) =>
         let* n_in := index layer_sizes i in
         let* n_out := index layer_sizes (i + 1) in
         Ok (ls ++ [nn_Linear (init_weight a i) (init_bias a i) n_in n_out]))
      [] = Ok ls /\
    map in_features ls = removelast layer_sizes /\
    map out_features ls = tail layer_sizes.
Proof.
  match goal with |- exists ls, for_each _ ?body _ = _ /\ _ =>
    destruct (for_each_range_inv
                (fun i ls => map in_features ls = take i layer_sizes /\
                             map out_features ls = take i (tail layer_sizes))
                body (length layer_sizes - 1) [])
      as (ls & Hls & Hin & Hout)
  end.
  - split; reflexivity.
  - intros i ls Hi [Hin Hout]. unfold index.
    destruct (lookup_lt_is_Some_2 layer_sizes i) as [n_in Hn_in]; [lia|].
    destruct (lookup_lt_is_Some_2 layer_sizes (i + 1)) as [n_out Hn_out]; [lia|].
    rewrite Hn_in, Hn_out. cbn [rbind]. eexists. split; [reflexivity|].
    rewrite !map_app, Hin, Hout. simpl. split.
    + symmetry. now apply take_S_r.
    + symmetry. apply take_S_r. rewrite lookup_tail.
      now replace (S i) with (i + 1)%nat by lia.
  - exists ls. split; [exact Hls|]. split.
    + rewrite Hin, removelast_firstn_len.
      now replace (Nat.pred (length layer_sizes)) with (length layer_sizes - 1)%nat by lia.
    + rewrite Hout. apply take_ge. destruct layer_sizes; simpl; lia.
Qed.

(** The widths of the two halves returned by [forward]. *)
Lemma forward_split (self : Model) (x mean var : Tensor2) :
  forward self x = Ok (mean, var) ->
  exists out,
    last (layers self) = Some out /\
    cols mean = (out_features out / 2)%nat /\
    cols var = (out_features out - out_features out / 2)%nat.
Proof.
  intros Hf. apply forward_Ok in Hf as (h & out & y & _ & Hlast & Hy & -> & ->).
  exists out. split; [exact Hlast|].
  unfold linear in Hy. destruct (Nat.eqb (cols h) (in_features out)); [|discriminate].
  injection Hy as <-. cbn [cols slice_to slice_from map2d].
  split; [|reflexivity].
  apply Nat.min_l, Nat.Div0.div_le_upper_bound. lia.
Qed.

Lemma linear_Ok (l : Linear) (x : Tensor2) :
  cols x = in_features l ->
  linear l x =
    Ok (T2 (out_features l)
           (map (fun r => zip_with (fun w b => dot r w + b) (weight l) (bias l))
                (rows x))).
Proof. intros Hc. unfold linear. now rewrite Hc, Nat.eqb_refl. Qed.

Lemma linear_Raise (l : Linear) (x : Tensor2) :
  cols x <> in_features l -> linear l x = Raise RuntimeError.
Proof.
  intros Hc. unfold linear.
  destruct (Nat.eqb_spec (cols x) (in_features l)); [contradiction | reflexivity].
Qed.

Lemma hidden_layers_Raise (ls : list Linear) (x : Tensor2) :
  chain (cols x) ls = None -> hidden_layers ls x = Raise RuntimeError.
Proof.
  revert x. induction ls as [|l ls IH]; intros x; simpl; [discriminate|].
  destruct (Nat.eqb_spec (in_features l) (cols x)) as [Heq|Hne].
  - intros Hc. rewrite linear_Ok by congruence. cbn [rbind].
    apply IH. exact Hc.
  - intros _. rewrite linear_Raise by congruence. reflexivity.
Qed.

Lemma chain_snoc_None (n : nat) (ls : list Linear) (l : Linear) :
  chain n (ls ++ [l]) = None ->
  chain n ls = None \/ exists n', chain n ls = Some n' /\ in_features l <> n'.
Proof.
  revert n. induction ls as [|l0 ls IH]; intros n; simpl.
  - destruct (Nat.eqb_spec (in_features l) n); [discriminate|].
    intros _. right. exists n. auto.
  - destruct (Nat.eqb (in_features l0) n); [apply IH | auto].
Qed.

(** The output [y] of the last layer when every layer receives the
    width it was built for. *)
Lemma forward_chain (self : Model) (x : Tensor2) (w : nat) :
  layers self <> [] -> chain (cols x) (layers self) = Some w ->
  exists y,
    forward self x =
      Ok (slice_to (w / 2) y,
          map2d (fun z => ln (1 + exp z) + variance_lower_bound self)
                (slice_from (w / 2) y)) /\
    cols y = w /\ length (rows y) = length (rows x) /\
    (Forall wf_linear (layers self) -> wf2 y).
Proof.
  intros Hne Hchain. unfold forward.
  destruct (layers self) as [|out ls _] using rev_ind; [congruence|].
  rewrite removelast_last.
  apply chain_snoc in Hchain as (n' & Hch & Hin & Hw).
  destruct (hidden_layers_total ls x n' Hch) as (h & -> & Hcols & Hlen).
  unfold index_last. rewrite last_snoc. cbn [rbind].
  rewrite linear_Ok by congruence. cbn [rbind cols].
  eexists. rewrite Hw. split; [reflexivity|]. cbn [cols rows].
  split; [reflexivity|]. split; [now rewrite length_map|].
  intros Hwf. rewrite Forall_app, Forall_singleton in Hwf.
  destruct Hwf as [_ (Hw1 & _ & Hw2)].
  unfold wf2. cbn [cols rows]. apply Forall_fmap, Forall_true. intros r. simpl.
  rewrite length_zip_with. lia.
Qed.

Lemma nn_Linear_wf (w : nat -> nat -> R) (b : nat -> R) (i o : nat) :
  wf_linear (nn_Linear w b i o).
Proof.
  unfold wf_linear, nn_Linear. cbn.
  rewrite !length_map, length_range. split; [reflexivity|]. split; [|reflexivity].
  apply Forall_fmap, Forall_true. intros r. simpl.
  now rewrite length_map, length_range.
Qed.

Lemma chain_of_sizes (ls : list Linear) (n0 : nat) (rest : list nat) (w : nat) :
  map in_features ls = removelast (n0 :: rest) ->
  map out_features ls = rest ->
  last (n0 :: rest) = Some w ->
  chain n0 ls = Some w.
Proof.
  revert n0 rest. induction ls as [|l ls IH]; intros n0 rest Hin Hout Hlast.
  - simpl in Hout. subst rest. simpl in Hlast. simpl. congruence.
  - simpl in Hout. destruct rest as [|o rest]; [discriminate|].
    injection Hout as Ho Hout.
    change (removelast (n0 :: o :: rest)) with (n0 :: removelast (o :: rest)) in Hin.
    simpl in Hin. injection Hin as Hi Hin.
    simpl. rewrite Hi, Nat.eqb_refl, Ho.
    apply (IH o rest); [exact Hin | exact Hout | exact Hlast].
Qed.

(** The optimizer is created exactly for a learning rate that is not
    negative and a list of parameters that is not empty. *)
Lemma Adam_Ok (params : list Linear) (lr : R) :
  params <> [] -> 0 <= lr -> Adam params lr = Ok tt.
Proof.
  intros Hp Hlr. unfold Adam. destruct (Rle_dec 0 lr); [|contradiction].
  destruct params; [congruence | reflexivity].
Qed.

Lemma Adam_Ok_inv (params : list Linear) (lr : R) (u : unit) :
  Adam params lr = Ok u -> params <> [] /\ 0 <= lr.
Proof.
  unfold Adam. destruct (Rle_dec 0 lr); [|discriminate].
  destruct params; [discriminate|]. intros _. split; [discriminate | assumption].
Qed.

Lemma Adam_Raise (params : list Linear) (lr : R) :
  params = [] \/ lr < 0 -> Adam params lr = Raise ValueError.
Proof.
  unfold Adam. intros [-> | Hlr].
  - destruct (Rle_dec 0 lr); reflexivity.
  - destruct (Rle_dec 0 lr); [lra | reflexivity].
Qed.

(** The instance that the constructor returns once its loop has built
    the layers [ls]. *)
Lemma init_Ok (layer_sizes : list nat) (a : InitArgs) (ls : list Linear) :
  for_each (range (length layer_sizes - 1))
    (fun i (ls : list Linear) =>
       let* n_in := index layer_sizes i in
       let* n_out := index layer_sizes (i + 1) in
       Ok (ls ++ [nn_Linear (init_weight a i) (init_bias a i) n_in n_out]))
    [] = Ok ls ->
  ls <> [] -> 0 <= arg_learning_rate a ->
  __init__ layer_sizes a =
    Ok {| teacher := arg_teacher a;
          loss := arg_loss_function a;
          output_size := arg_output_size a;
          use_hard_labels := arg_use_hard_labels a;
          learning_rate := arg_learning_rate a;
          scale_teacher_logits := arg_scale_teacher_logits a;
          layers := ls;
          variance_lower_bound := 1 / 1000 |}.
Proof.
  intros Hls Hne Hlr. unfold __init__. rewrite Hls. cbn [rbind].
  now rewrite Adam_Ok.
Qed.

(** The layers of a constructed instance, and what its construction
    required. *)
Lemma init_layers (layer_sizes : list nat) (a : InitArgs) (self : Model) :
  __init__ layer_sizes a = Ok self ->
  map in_features (layers self) = removelast layer_sizes /\
  map out_features (layers self) = tail layer_sizes /\
  Forall wf_linear (layers self) /\
  layers self <> [] /\ 0 <= arg_learning_rate a.
Proof.
  intros Hi.
  destruct (init_layers_total layer_sizes a) as (ls & Hls & Hin & Hout).
  unfold __init__ in Hi.
  assert (Hwf : Forall wf_linear ls).
  { refine (for_each_preserves (Forall wf_linear) _ _ _ _ _ Hls _).
    - intros i l0 l1 Hstep Hl0.
      apply rbind_Ok in Hstep as (n_in & _ & Hstep).
      apply rbind_Ok in Hstep as (n_out & _ & Hstep).
      injection Hstep as <-. rewrite Forall_app, Forall_singleton.
      split; [exact Hl0 | apply nn_Linear_wf].
    - constructor. }
  rewrite Hls in Hi. cbn [rbind] in Hi.
  apply rbind_Ok in Hi as (u & Hadam & Hi).
  apply Adam_Ok_inv in Hadam as [Hne Hlr].
  injection Hi as <-. cbn [layers]. auto.
Qed.

(** The constructor returns for two sizes or more and a learning rate
    that is not negative, and raises [ValueError] otherwise. *)
Lemma init_returns (layer_sizes : list nat) (a : InitArgs) :
  (2 <= length layer_sizes)%nat -> 0 <= arg_learning_rate a ->
  exists self, __init__ layer_sizes a = Ok self.
Proof.
  intros Hlen Hlr.
  destruct (init_layers_total layer_sizes a) as (ls & Hls & _ & Hout).
  eexists. apply (init_Ok layer_sizes a ls Hls); [|exact Hlr].
  intros ->. destruct layer_sizes as [|n0 [|n1 rest]]; simpl in *; try lia.
  discriminate.
Qed.

Lemma init_refused (layer_sizes : list nat) (a : InitArgs) :
  (length layer_sizes <= 1)%nat \/ arg_learning_rate a < 0 ->
  __init__ layer_sizes a = Raise ValueError.
Proof.
  intros Hbad.
  destruct (init_layers_total layer_sizes a) as (ls & Hls & _ & Hout).
  unfold __init__. rewrite Hls. cbn [rbind].
  rewrite Adam_Raise; [reflexivity|].
  destruct Hbad as [Hlen | Hlr]; [left | now right].
  destruct layer_sizes as [|n0 [|n1 rest]]; simpl in *; try lia;
    destruct ls; try discriminate; reflexivity.
Qed.

(** C6, as stated, fails: the sizes [1; 3], whose final width is odd,
    are accepted by the constructor, and [forward] then returns a mean
    of one column and a variance of two. *)
Lemma odd_width_counterexample :
  exists self mean var,
    __init__ [1%nat; 3%nat] Examples.unit_args = Ok self /\
    forward self Examples.small_input = Ok (mean, var) /\
    cols mean = 1%nat /\ cols var = 2%nat /\
    rows mean = [[2 * 1 + 0 + 1]] /\
    length <$> rows var = [2%nat].
Proof.
  eexists. eexists. eexists.
  split; [apply init_Ok; [reflexivity | discriminate | simpl; lra]|].
  split; [reflexivity|]. repeat split; reflexivity.
Qed.

(** C6, amended. A list of at least two positive layer sizes whose
    final width [w] is odd is not refused at construction: with a
    learning rate that is not negative the constructor returns an
    instance, and on every batch of the first size [forward] returns a
    mean of [w / 2] columns (rounded down) and a variance of
    [w / 2 + 1] columns, so the output is split into unequal halves. *)
Theorem construction_unchecked (layer_sizes : list nat) (a : InitArgs)
    (n0 w : nat) :
  (2 <= length layer_sizes)%nat ->
  Forall (fun n => (1 <= n)%nat) layer_sizes ->
  head layer_sizes = Some n0 -> last layer_sizes = Some w ->
  Nat.Odd w -> 0 <= arg_learning_rate a ->
  exists self,
    __init__ layer_sizes a = Ok self /\
    forall x, cols x = n0 ->
      exists mean var,
        forward self x = Ok (mean, var) /\
        cols mean = (w / 2)%nat /\ cols var = (w / 2 + 1)%nat /\
        cols mean <> cols var.
Proof.
  intros Hlen _ Hhead Hlast [q Hq] Hlr.
  destruct (init_returns layer_sizes a Hlen Hlr) as (self & Hself).
  exists self. split; [exact Hself|].
  apply init_layers in Hself as (Hin & Hout & _ & Hne & _).
  destruct layer_sizes as [|n0' rest]; [discriminate|].
  injection Hhead as ->. simpl in Hout.
  intros x Hc.
  assert (Hchain : chain (cols x) (layers self) = Some w)
    by (rewrite Hc; exact (chain_of_sizes _ _ _ _ Hin Hout Hlast)).
  destruct (forward_chain self x w Hne Hchain) as (y & Hf & Hcy & _).
  eexists. eexists. split; [exact Hf|].
  cbn [cols slice_to slice_from map2d]. rewrite Hcy.
  assert (Hhalf : (w / 2 = q)%nat).
  { rewrite Hq, Nat.add_comm, Nat.mul_comm, Nat.div_add by lia. reflexivity. }
  rewrite Hhalf. lia.
Qed.

Lemma construction_unchecked_witness :
  exists self,
    __init__ [1%nat; 3%nat] Examples.unit_args = Ok self /\
    forall x, cols x = 1%nat ->
      exists mean var,
        forward self x = Ok (mean, var) /\
        cols mean = (3 / 2)%nat /\ cols var = (3 / 2 + 1)%nat /\
        cols mean <> cols var.
Proof.
  apply (construction_unchecked [1%nat; 3%nat] Examples.unit_args 1 3).
  - simpl. lia.
  - repeat constructor.
  - reflexivity.
  - reflexivity.
  - exists 1%nat. reflexivity.
  - simpl. lra.
Defined.

End LogitsProbabilityDistributionProofs.

(** ** Properties of the uncertainty decomposition *)

Module MetricsProofs.

Import Torch Metrics.
Open Scope R_scope.

Lemma ln_le_pred (t : R) : 0 < t -> ln t <= t - 1.
Proof.
  intros Ht. pose proof (exp_ineq1_le (ln t)) as H.
  rewrite exp_ln in H by assumption. lra.
Qed.

Lemma xlnx_nonpos (x : R) : 0 <= x <= 1 -> x * ln x <= 0.
Proof.
  intros [[Hx | <-] Hx1]; [|lra].
  pose proof (ln_le_pred x Hx). nra.
Qed.

(** [x ln x] lies above its tangent at [m]. *)
Lemma xlnx_tangent (x m : R) :
  0 <= x -> 0 < m -> m * ln m + (1 + ln m) * (x - m) <= x * ln x.
Proof.
  intros [Hx | <-] Hm.
  - assert (Hq : 0 < m / x) by (apply Rdiv_lt_0_compat; assumption).
    pose proof (ln_le_pred (m / x) Hq) as H.
    unfold Rdiv in H. rewrite ln_mult, ln_Rinv in H
      by (try apply Rinv_0_lt_compat; assumption).
    assert (Hmul : x * (ln m + - ln x) <= x * (m * / x - 1))
      by (apply Rmult_le_compat_l; lra).
    replace (x * (m * / x - 1)) with (m - x) in Hmul by (field; lra).
    lra.
  - lra.
Qed.

Lemma sum_tangent (l : list R) (m : R) :
  Forall (fun x => 0 <= x) l -> 0 < m ->
  INR (length l) * (m * ln m) + (1 + ln m) * (sum l - INR (length l) * m)
  <= sum (map (fun x => x * ln x) l).
Proof.
  intros Hl Hm. induction Hl as [|x l Hx _ IH].
  - simpl. lra.
  - cbn [length map sum foldr]. fold (sum l).
    fold (sum (map (fun x => x * ln x) l)). rewrite S_INR.
    pose proof (xlnx_tangent x m Hx Hm) as Ht.
    replace ((INR (length l) + 1) * (m * ln m)
             + (1 + ln m) * (x + sum l - (INR (length l) + 1) * m))
      with ((INR (length l) * (m * ln m)
             + (1 + ln m) * (sum l - INR (length l) * m))
            + (m * ln m + (1 + ln m) * (x - m))) by ring.
    lra.
Qed.

Lemma sum_nonneg (l : list R) : Forall (fun x => 0 <= x) l -> 0 <= sum l.
Proof. induction 1 as [|x l Hx _ IH]; simpl; [lra|]. fold (sum l). lra. Qed.

Lemma sum_zero_all_zero (l : list R) :
  Forall (fun x => 0 <= x) l -> sum l = 0 -> Forall (fun x => x = 0) l.
Proof.
  induction 1 as [|x l Hx Hl IH]; simpl; [constructor|]. fold (sum l).
  intros Hs. pose proof (sum_nonneg l Hl).
  constructor; [lra | apply IH; lra].
Qed.

(** Jensen's inequality for [x ln x] and the mean of a list. *)
Lemma jensen_xlnx (l : list R) :
  Forall (fun x => 0 <= x) l -> l <> [] ->
  INR (length l) * (sum l / INR (length l) * ln (sum l / INR (length l)))
  <= sum (map (fun x => x * ln x) l).
Proof.
  intros Hl Hne.
  assert (Hn : 0 < INR (length l)).
  { apply lt_0_INR. destruct l; [congruence | simpl; lia]. }
  pose proof (sum_nonneg l Hl) as [Hs | Hs].
  - assert (Hm : 0 < sum l / INR (length l))
      by (apply Rdiv_lt_0_compat; assumption).
    pose proof (sum_tangent l _ Hl Hm) as H.
    replace (sum l - INR (length l) * (sum l / INR (length l))) with 0 in H
      by (field; lra).
    lra.
  - rewrite <- Hs. unfold Rdiv. rewrite !Rmult_0_l, Rmult_0_r.
    apply sum_nonneg. apply Forall_fmap.
    eapply Forall_impl; [exact (sum_zero_all_zero l Hl (eq_sym Hs))|].
    intros x ->. simpl. lra.
Qed.

Lemma sum_bounds (l : list R) :
  Forall (fun p => 0 <= p <= 1) l -> 0 <= sum l <= INR (length l).
Proof.
  induction 1 as [|x l Hx _ IH]; [simpl; lra|].
  cbn [length sum foldr]. fold (sum l). rewrite S_INR. lra.
Qed.

Lemma sum_nonpos (l : list R) : Forall (fun x => x <= 0) l -> sum l <= 0.
Proof. induction 1 as [|x l Hx _ IH]; simpl; [lra|]. fold (sum l). lra. Qed.

Lemma sum_replicate_0 (k : nat) : sum (replicate k 0) = 0.
Proof. induction k as [|k IH]; simpl; [reflexivity|]. fold (sum (replicate k 0)). lra. Qed.

Lemma sum_zip_with_plus (u v : list R) :
  length u = length v -> sum (zip_with Rplus u v) = sum u + sum v.
Proof.
  revert v. induction u as [|x u IH]; intros [|y v] Hlen; simpl in *;
    try discriminate; [lra|].
  fold (sum (zip_with Rplus u v)) (sum u) (sum v).
  rewrite IH by lia. lra.
Qed.

Lemma sum_le_pointwise (u v : list R) : Forall2 Rle u v -> sum u <= sum v.
Proof. induction 1 as [|x y u v Hxy _ IH]; simpl; [lra|]. fold (sum u) (sum v). lra. Qed.

Lemma sum_map_mult (c : R) (f : R -> R) (l : list R) :
  sum (map (fun x => c * f x) l) = c * sum (map f l).
Proof.
  induction l as [|x l IH]; simpl; [lra|].
  fold (sum (map (fun x => c * f x) l)) (sum (map f l)). rewrite IH. ring.
Qed.

Lemma col_sums_length (k : nat) (e : list (list R)) :
  Forall (fun r => length r = k) e -> length (col_sums k e) = k.
Proof.
  induction 1 as [|r e Hr _ IH]; simpl.
  - apply length_replicate.
  - fold (col_sums k e). rewrite length_zip_with. lia.
Qed.

Lemma col_sums_lookup (k : nat) (e : list (list R)) (c : nat) :
  Forall (fun r => length r = k) e -> (c < k)%nat ->
  col_sums k e !! c = Some (sum (column c e)).
Proof.
  intros He Hc. induction He as [|r e Hr _ IH]; simpl.
  - now apply lookup_replicate_2.
  - fold (col_sums k e) (column c e) (sum (column c e)).
    rewrite lookup_zip_with, IH.
    destruct (lookup_lt_is_Some_2 r c) as [x Hx]; [lia|].
    rewrite Hx. reflexivity.
Qed.

Lemma sum_col_sums (k : nat) (e : list (list R)) :
  Forall (fun r => length r = k) e -> sum (col_sums k e) = sum (map sum e).
Proof.
  induction 1 as [|r e Hr He IH]; simpl.
  - apply sum_replicate_0.
  - fold (col_sums k e) (sum (map sum e)).
    rewrite sum_zip_with_plus, IH; [reflexivity|].
    rewrite col_sums_length; assumption.
Qed.

Lemma column_map (f : R -> R) (k c : nat) (e : list (list R)) :
  Forall (fun r => length r = k) e -> (c < k)%nat ->
  column c (map (map f) e) = map f (column c e).
Proof.
  intros He Hc. unfold column. rewrite !map_map.
  apply Forall_fmap_ext_1. eapply Forall_impl; [exact He|].
  intros r Hr. simpl in *.
  destruct (lookup_lt_is_Some_2 r c) as [x Hx]; [lia|].
  now rewrite list_lookup_fmap, Hx.
Qed.

Lemma column_length (c : nat) (e : list (list R)) :
  length (column c e) = length e.
Proof. apply length_map. Qed.

Lemma column_probabilities (c : nat) (e : list (list R)) :
  Forall (Forall (fun p => 0 <= p <= 1)) e ->
  Forall (fun p => 0 <= p <= 1) (column c e).
Proof.
  intros He. unfold column. apply Forall_fmap.
  eapply Forall_impl; [exact He|]. intros r Hr. simpl.
  destruct (r !! c) as [x|] eqn:Hx; simpl; [|lra].
  exact (Forall_lookup_1 _ _ _ _ Hr Hx).
Qed.

Lemma entropy_nonneg (p : list R) :
  Forall (fun x => 0 <= x <= 1) p -> 0 <= entropy p.
Proof.
  intros Hp. unfold entropy.
  assert (sum (map (fun x => x * ln x) p) <= 0); [|lra].
  apply sum_nonpos, Forall_fmap. eapply Forall_impl; [exact Hp|].
  intros x Hx. simpl. now apply xlnx_nonpos.
Qed.

(** The sample-averaged distribution of one example is a vector of
    probabilities. *)
Lemma mean_probabilities (n k : nat) (e : list (list R)) :
  length e = n -> (1 <= n)%nat ->
  Forall (fun r => length r = k) e ->
  Forall (Forall (fun p => 0 <= p <= 1)) e ->
  Forall (fun p => 0 <= p <= 1) (map (fun s => s / INR n) (col_sums k e)).
Proof.
  intros Hn Hpos Hrect Hprob.
  assert (HS : 0 < INR n) by (apply lt_0_INR; lia).
  apply Forall_fmap, Forall_lookup_2. intros c s Hs. simpl.
  assert (Hc : (c < k)%nat).
  { rewrite <- (col_sums_length k e Hrect). eapply lookup_lt_Some. exact Hs. }
  rewrite (col_sums_lookup k e c Hrect Hc) in Hs. injection Hs as <-.
  pose proof (sum_bounds _ (column_probabilities c e Hprob)) as [Hlo Hhi].
  rewrite column_length, Hn in Hhi.
  split.
  - apply Rle_mult_inv_pos; assumption.
  - apply (Rmult_le_reg_r (INR n)); [assumption|].
    unfold Rdiv. rewrite Rmult_assoc, Rinv_l by lra. lra.
Qed.

(** For one example: the entropy of the mean is at least the mean of
    the entropies, and both are non-negative. *)
Lemma example_decomposition (n k : nat) (e : list (list R)) :
  length e = n -> (1 <= n)%nat ->
  Forall (fun r => length r = k) e ->
  Forall (Forall (fun p => 0 <= p <= 1)) e ->
  0 <= entropy (map (fun s => s / INR n) (col_sums k e)) /\
  0 <= sum (map entropy e) / INR n /\
  sum (map entropy e) / INR n
    <= entropy (map (fun s => s / INR n) (col_sums k e)).
Proof.
  intros Hn Hpos Hrect Hprob.
  assert (HS : 0 < INR n) by (apply lt_0_INR; lia).
  split; [|split].
  - apply entropy_nonneg. now apply mean_probabilities.
  - apply Rle_mult_inv_pos; [|assumption].
    apply sum_nonneg, Forall_fmap. eapply Forall_impl; [exact Hprob|].
    intros r Hr. simpl. now apply entropy_nonneg.
  - set (f := fun x : R => x * ln x).
    assert (Hrect' : Forall (fun r => length r = k) (map (map f) e)).
    { apply Forall_fmap. eapply Forall_impl; [exact Hrect|].
      intros r Hr. simpl. now rewrite length_map. }
    assert (Hal : sum (map entropy e) = - sum (col_sums k (map (map f) e))).
    { rewrite (sum_col_sums k _ Hrect'), map_map. unfold entropy. fold f.
      clear. induction e as [|r e IH]; simpl; [lra|].
      fold (sum (map (fun r => - sum (map f r)) e))
           (sum (map (fun r => sum (map f r)) e)).
      rewrite IH. lra. }
    assert (Hjensen :
      INR n * sum (map f (map (fun s => s / INR n) (col_sums k e)))
      <= sum (col_sums k (map (map f) e))).
    { rewrite map_map, <- sum_map_mult.
      apply sum_le_pointwise, Forall2_same_length_lookup_2.
      - rewrite length_map, !col_sums_length by assumption. reflexivity.
      - intros c x y Hx Hy. rewrite list_lookup_fmap in Hx.
        assert (Hc : (c < k)%nat).
        { rewrite <- (col_sums_length k _ Hrect'). eapply lookup_lt_Some. exact Hy. }
        rewrite (col_sums_lookup k e c Hrect Hc) in Hx. injection Hx as <-.
        rewrite (col_sums_lookup k _ c Hrect' Hc) in Hy. injection Hy as <-.
        rewrite (column_map f k c e Hrect Hc).
        pose proof (jensen_xlnx (column c e)) as HJ.
        rewrite column_length, Hn in HJ. apply HJ.
        + eapply Forall_impl; [exact (column_probabilities c e Hprob)|].
          intros p Hp. simpl in Hp. lra.
        + unfold column. destruct e; [simpl in Hn; lia | discriminate]. }
    rewrite Hal. unfold entropy. fold f.
    apply (Rmult_le_reg_r (INR n)); [assumption|].
    unfold Rdiv. rewrite Rmult_assoc, Rinv_l by lra. lra.
Qed.

(** C2. For every predictive sample set (a tensor of shape
    [(batch, samples, classes)] with at least one sample whose entries
    are probabilities), [uncertainty_separation_entropy] returns, for
    every example, a total, an epistemic and an aleatoric uncertainty
    with total = aleatoric + epistemic, all three non-negative: the
    total is the Shannon entropy of the sample-averaged distribution,
    the aleatoric part is the mean of the per-sample entropies and the
    epistemic part is the total minus the aleatoric part. *)
Theorem uncertainty_decomposition (predicted_distribution : Tensor3)
    (labels : option (list nat)) (total epistemic aleatoric : list R) :
  wf3 predicted_distribution ->
  (1 <= dim1 predicted_distribution)%nat ->
  probabilities predicted_distribution ->
  uncertainty_separation_entropy predicted_distribution labels
    = (total, epistemic, aleatoric) ->
  length total = length (cells predicted_distribution) /\
  length epistemic = length (cells predicted_distribution) /\
  length aleatoric = length (cells predicted_distribution) /\
  forall i e,
    cells predicted_distribution !! i = Some e ->
    exists mean_i t ep al,
      rows (mean_samples predicted_distribution) !! i = Some mean_i /\
      total !! i = Some t /\ epistemic !! i = Some ep /\
      aleatoric !! i = Some al /\
      t = al + ep /\ 0 <= t /\ 0 <= ep /\ 0 <= al /\
      t = entropy mean_i /\
      al = sum (map entropy e) / INR (dim1 predicted_distribution) /\
      ep = t - al.
Proof.
  intros Hwf Hn Hprob Hrun. unfold uncertainty_separation_entropy in Hrun.
  injection Hrun as <- <- <-. cbn [mean_samples rows].
  rewrite length_zip_with, !length_map.
  split; [reflexivity|]. split; [lia|]. split; [reflexivity|].
  intros i e He.
  pose proof (Forall_lookup_1 _ _ _ _ Hwf He) as [Hlen Hrect]. simpl in Hlen.
  pose proof (Forall_lookup_1 _ _ _ _ Hprob He) as Hpe. simpl in Hpe.
  destruct (example_decomposition _ _ e Hlen Hn Hrect Hpe) as (Ht & Hal & Hle).
  eexists. eexists. eexists. eexists.
  rewrite lookup_zip_with, !list_lookup_fmap, He. simpl.
  repeat split; try reflexivity; try assumption; lra.
Qed.

Lemma uncertainty_decomposition_witness :
  length [entropy [(1 / 2 + (1 / 4 + 0)) / INR 2; (1 / 2 + (3 / 4 + 0)) / INR 2]]
    = 1%nat /\
  forall i e,
    cells Examples.two_samples !! i = Some e ->
    exists mean_i t ep al,
      rows (mean_samples Examples.two_samples) !! i = Some mean_i /\
      [entropy [(1 / 2 + (1 / 4 + 0)) / INR 2; (1 / 2 + (3 / 4 + 0)) / INR 2]] !! i
        = Some t /\
      zip_with Rminus
        [entropy [(1 / 2 + (1 / 4 + 0)) / INR 2; (1 / 2 + (3 / 4 + 0)) / INR 2]]
        [sum (map entropy [[1 / 2; 1 / 2]; [1 / 4; 3 / 4]]) / INR 2] !! i = Some ep /\
      [sum (map entropy [[1 / 2; 1 / 2]; [1 / 4; 3 / 4]]) / INR 2] !! i = Some al /\
      t = al + ep /\ 0 <= t /\ 0 <= ep /\ 0 <= al /\
      t = entropy mean_i /\
      al = sum (map entropy e) / INR (dim1 Examples.two_samples) /\
      ep = t - al.
Proof.
  assert (Hwf : wf3 Examples.two_samples) by (repeat constructor).
  assert (Hprob : probabilities Examples.two_samples).
  { unfold probabilities, Examples.two_samples. simpl.
    repeat constructor; lra. }
  destruct (uncertainty_decomposition Examples.two_samples None _ _ _
              Hwf ltac:(simpl; lia) Hprob eq_refl) as (Ht & _ & _ & Hall).
  split; [exact Ht | exact Hall].
Defined.

End MetricsProofs.

(** ** Properties of the regression dataset *)

Module GaussianSinusProofs.

Import GaussianSinus.
Open Scope R_scope.

Section Dataset.

Context {RS : Type} `{NumpyRandom RS}.

(** [mkdir] creates directories and leaves every file as it is. *)
Lemma mkdir_files (p : Path) (w w' : World RS) (r : Result unit) :
  mkdir p w = (r, w') ->
  files w' = files w /\ (r = Ok tt \/ r = Raise FileExistsError).
Proof.
  unfold mkdir. destruct (existsb _ _); intros [= <- <-]; auto.
Qed.

(** In test mode [sample_new_data] raises before anything is saved. *)
Lemma sample_new_data_test (self : Self) (w w' : World RS) (r : Result unit) :
  train self = false ->
  sample_new_data self w = (r, w') ->
  (r = Raise NameError \/ r = Raise FileExistsError) /\ files w' = files w.
Proof.
  intros Htrain. unfold sample_new_data, mbind. rewrite Htrain.
  destruct (mkdir (parent (file self)) w) as [r0 w0] eqn:Hmk.
  apply mkdir_files in Hmk as [Hfiles [-> | ->]].
  - unfold random_uniform.
    destruct (uniform (-3) 3 (n_samples self) (random_state w0)) as [x s].
    cbn. intros [= <- <-]. auto.
  - intros [= <- <-]. auto.
Qed.

(** [validate_dataset] only reads. *)
Lemma validate_dataset_files (self : Self) (w w' : World RS) (r : Result unit) :
  validate_dataset self w = (r, w') -> w' = w.
Proof.
  unfold validate_dataset, mbind, read_rows.
  destruct (files w !! file self) as [a|].
  - destruct (Z.eqb _ _); now intros [= _ <-].
  - destruct (bool_decide _); now intros [= _ <-].
Qed.

(** C10. Constructing a [GaussianSinus] with [train=False] when no
    stored file is reused always fails, with the [NameError] for the
    unassigned [y] unless creating the directory has already failed,
    and writes no file; a construction that changes a file's content
    is one with [train=True] that samples new data. *)
Theorem test_mode_never_written (store_file : Path) (train reuse_data : bool)
    (n_samples : nat) (w w' : World RS) (r : Result Self) :
  __init__ store_file train reuse_data n_samples w = (r, w') ->
  (train = false -> path_exists store_file w && reuse_data = false ->
   (r = Raise NameError \/ r = Raise FileExistsError) /\ files w' = files w) /\
  (files w' <> files w ->
   train = true /\ path_exists store_file w && reuse_data = false).
Proof.
  unfold __init__. cbn [file].
  destruct (path_exists store_file w && reuse_data) eqn:Hreuse.
  - unfold mbind.
    destruct (validate_dataset _ w) as [r0 w0] eqn:Hv.
    apply validate_dataset_files in Hv as ->.
    intros Hrun. split; [discriminate|].
    intros Hne. exfalso. apply Hne.
    destruct r0; injection Hrun as _ <-; reflexivity.
  - unfold mbind.
    destruct (sample_new_data _ w) as [r0 w0] eqn:Hs.
    intros Hrun. split.
    + intros -> _.
      apply sample_new_data_test in Hs as [Hr Hfiles]; [|reflexivity].
      destruct Hr as [-> | ->]; injection Hrun as <- <-; auto.
    + intros Hne. split; [|reflexivity].
      destruct train; [reflexivity|]. exfalso. apply Hne.
      apply sample_new_data_test in Hs as [Hr Hfiles]; [|reflexivity].
      destruct Hr as [-> | ->]; injection Hrun as _ <-; exact Hfiles.
Qed.

End Dataset.

Lemma test_mode_never_written_witness :
  (exists w',
     __init__ Examples.store_file false false 3 Examples.empty_world
       = (Raise NameError, w') /\
     files w' = files Examples.empty_world) /\
  (exists self w',
     __init__ Examples.store_file true false 3 Examples.empty_world
       = (Ok self, w') /\
     files w' !! Examples.store_file
       = Some [[-3; sin (-3)]; [-3; sin (-3)]; [-3; sin (-3)]] /\
     true = true /\
     path_exists Examples.store_file Examples.empty_world && false = false).
Proof.
  split.
  - eexists. split; [reflexivity|].
    exact (proj2 (proj1 (test_mode_never_written Examples.store_file false false 3
                           Examples.empty_world _ _ eq_refl) eq_refl eq_refl)).
  - eexists. eexists. split; [reflexivity|]. split; [reflexivity|].
    refine (proj2 (test_mode_never_written Examples.store_file true false 3
                     Examples.empty_world _ _ eq_refl) _).
    simpl. intros Heq.
    apply (f_equal (fun m => m !! Examples.store_file)) in Heq.
    rewrite lookup_insert_eq, lookup_empty in Heq. discriminate.
Defined.

End GaussianSinusProofs.

(** ** More properties of the distilled model *)

Module LogitsProbabilityDistributionRestProofs.

Import Torch LogitsProbabilityDistribution LogitsProbabilityDistributionRest.
Import LogitsProbabilityDistributionProofs.
Open Scope R_scope.

(** *** When [forward] returns *)

(** The three ways [forward] can end. *)
Lemma forward_cases (self : Model) (x : Tensor2) :
  (layers self = [] -> forward self x = Raise IndexError) /\
  (layers self <> [] -> chain (cols x) (layers self) = None ->
   forward self x = Raise RuntimeError) /\
  (forall w, layers self <> [] -> chain (cols x) (layers self) = Some w ->
   exists mean var,
     forward self x = Ok (mean, var) /\
     cols mean = (w / 2)%nat /\ cols var = (w - w / 2)%nat /\
     size0 mean = size0 x /\ size0 var = size0 x).
Proof.
  split; [|split].
  - intros Hl. unfold forward. rewrite Hl. reflexivity.
  - intros Hne Hchain. unfold forward.
    destruct (layers self) as [|out ls _] using rev_ind; [congruence|].
    rewrite removelast_last.
    apply chain_snoc_None in Hchain as [Hnone | (n' & Hch & Hin)].
    + now rewrite hidden_layers_Raise.
    + destruct (hidden_layers_total ls x n' Hch) as (h & -> & Hcols & _).
      unfold index_last. rewrite last_snoc. cbn [rbind].
      rewrite linear_Raise by congruence. reflexivity.
  - intros w Hne Hchain.
    destruct (forward_chain self x w Hne Hchain) as (y & Hf & Hcy & Hly & _).
    eexists. eexists. split; [exact Hf|].
    unfold size0. cbn [cols rows slice_to slice_from map2d].
    rewrite Hcy, !length_map, Hly.
    split; [apply Nat.min_l, Nat.Div0.div_le_upper_bound; lia|].
    repeat split; reflexivity.
Qed.

(** X1. [forward] raises [IndexError] on a model without layers and
    [RuntimeError] when some layer receives an input of a width other
    than its [in_features]; otherwise it returns a mean and a variance
    with one row per example, of [w / 2] and [w - w / 2] columns for a
    last layer of width [w].  Whether it returns depends on the width
    of the batch only, not on its values or its size. *)
Theorem forward_outcome (self : Model) (x : Tensor2) :
  (layers self = [] -> forward self x = Raise IndexError) /\
  (layers self <> [] -> chain (cols x) (layers self) = None ->
   forward self x = Raise RuntimeError) /\
  (forall w, layers self <> [] -> chain (cols x) (layers self) = Some w ->
   exists mean var,
     forward self x = Ok (mean, var) /\
     cols mean = (w / 2)%nat /\ cols var = (w - w / 2)%nat /\
     size0 mean = size0 x /\ size0 var = size0 x).
Proof. exact (forward_cases self x). Qed.

Lemma forward_outcome_witness :
  forward MoreExamples.bare_model Examples.small_input = Raise IndexError /\
  forward MoreExamples.odd_model (T2 2 [[1; 2]]) = Raise RuntimeError /\
  exists mean var,
    forward MoreExamples.odd_model MoreExamples.two_inputs = Ok (mean, var) /\
    cols mean = (3 / 2)%nat /\ cols var = (3 - 3 / 2)%nat /\
    size0 mean = 2%nat /\ size0 var = 2%nat.
Proof.
  split; [|split].
  - apply (proj1 (forward_outcome MoreExamples.bare_model Examples.small_input)).
    reflexivity.
  - apply (proj1 (proj2 (forward_outcome MoreExamples.odd_model (T2 2 [[1; 2]]))));
      [discriminate | reflexivity].
  - apply (proj2 (proj2 (forward_outcome MoreExamples.odd_model
                           MoreExamples.two_inputs)) 3%nat);
      [discriminate | reflexivity].
Defined.

(** *** Constructed models *)

(** X2. The constructor raises [ValueError] for a list of fewer than
    two layer sizes, which leaves the optimizer without parameters, and
    for a negative learning rate; for two or more positive sizes and a
    learning rate that is not negative it returns an instance.  An
    instance constructed from the sizes [n0, ..., w]
    returns on every batch of width [n0], with a well-formed mean of
    shape [(batch, w / 2)] and variance of shape [(batch, w - w / 2)],
    and raises [RuntimeError] on a batch of any other width. *)
Theorem constructed_forward (layer_sizes : list nat) (a : InitArgs) :
  ((length layer_sizes <= 1)%nat ->
   __init__ layer_sizes a = Raise ValueError) /\
  (Forall (fun n => (1 <= n)%nat) layer_sizes -> arg_learning_rate a < 0 ->
   __init__ layer_sizes a = Raise ValueError) /\
  ((2 <= length layer_sizes)%nat ->
   Forall (fun n => (1 <= n)%nat) layer_sizes -> 0 <= arg_learning_rate a ->
   exists self, __init__ layer_sizes a = Ok self) /\
  (forall self x n0 w,
     __init__ layer_sizes a = Ok self ->
     head layer_sizes = Some n0 -> last layer_sizes = Some w ->
     (cols x <> n0 -> forward self x = Raise RuntimeError) /\
     (cols x = n0 ->
      exists mean var,
        forward self x = Ok (mean, var) /\
        wf2 mean /\ wf2 var /\
        cols mean = (w / 2)%nat /\ cols var = (w - w / 2)%nat /\
        size0 mean = size0 x /\ size0 var = size0 x)).
Proof.
  split; [intros Hlen; apply init_refused; now left|].
  split; [intros _ Hlr; apply init_refused; now right|].
  split; [intros Hlen _ Hlr; now apply init_returns|].
  intros self x n0 w Hi Hhead Hlast.
  apply init_layers in Hi as (Hin & Hout & Hwf & Hne & _).
  destruct layer_sizes as [|n0' rest]; [discriminate|].
  injection Hhead as ->. simpl in Hout.
  split.
  - intros Hc. apply forward_cases; [exact Hne|].
    destruct (layers self) as [|l ls]; [congruence|].
    destruct rest as [|o rest]; [discriminate|].
    change (removelast (n0 :: o :: rest)) with (n0 :: removelast (o :: rest)) in Hin.
    simpl in Hin. injection Hin as Hl _.
    simpl. rewrite Hl.
    destruct (Nat.eqb_spec n0 (cols x)); [congruence | reflexivity].
  - intros Hc.
    assert (Hchain : chain (cols x) (layers self) = Some w)
      by (rewrite Hc; exact (chain_of_sizes _ _ _ _ Hin Hout Hlast)).
    destruct (forward_chain self x w Hne Hchain) as (y & Hf & Hcy & Hly & Hwy).
    specialize (Hwy Hwf).
    eexists. eexists. split; [exact Hf|].
    unfold size0, wf2 in *. cbn [cols rows slice_to slice_from map2d].
    rewrite Hcy, !length_map, Hly, map_map.
    assert (Hhalf : (w / 2 <= w)%nat)
      by (apply Nat.Div0.div_le_upper_bound; lia).
    split; [|split; [|split; [lia|repeat split; reflexivity]]].
    + apply Forall_fmap. eapply Forall_impl; [exact Hwy|].
      intros r Hr. simpl in *. rewrite length_take. lia.
    + apply Forall_fmap. eapply Forall_impl; [exact Hwy|].
      intros r Hr. simpl in *. rewrite length_map, length_drop. lia.
Qed.

Lemma constructed_forward_witness :
  __init__ [5%nat] MoreExamples.two_class_args = Raise ValueError /\
  __init__ [1%nat; 3%nat; 4%nat] MoreExamples.negative_rate_args
    = Raise ValueError /\
  exists self,
    __init__ [1%nat; 3%nat; 4%nat] MoreExamples.two_class_args = Ok self /\
    forward self (T2 2 [[1; 2]]) = Raise RuntimeError /\
    exists mean var,
      forward self MoreExamples.two_inputs = Ok (mean, var) /\
      wf2 mean /\ wf2 var /\
      cols mean = (4 / 2)%nat /\ cols var = (4 - 4 / 2)%nat /\
      size0 mean = 2%nat /\ size0 var = 2%nat.
Proof.
  pose proof (constructed_forward [5%nat] MoreExamples.two_class_args)
    as (Hshort & _ & _ & _).
  pose proof (constructed_forward [1%nat; 3%nat; 4%nat]
                MoreExamples.negative_rate_args) as (_ & Hrate & _ & _).
  pose proof (constructed_forward [1%nat; 3%nat; 4%nat]
                MoreExamples.two_class_args) as (_ & _ & Hlong & Hrun).
  split; [apply Hshort; simpl; lia|].
  split; [apply Hrate; [repeat constructor | simpl; lra]|].
  destruct Hlong as (self & Hself);
    [simpl; lia | repeat constructor | simpl; lra |].
  exists self. split; [exact Hself|]. split.
  - apply (proj1 (Hrun self (T2 2 [[1; 2]]) 1%nat 4%nat Hself eq_refl eq_refl)).
    discriminate.
  - apply (proj2 (Hrun self MoreExamples.two_inputs 1%nat 4%nat Hself
                    eq_refl eq_refl)).
    reflexivity.
Defined.

(** *** [forward] works example by example *)

Lemma hidden_layers_rowwise (ls : list Linear) (c c' : nat) :
  chain c ls = Some c' ->
  exists F : list R -> list R,
    forall rs, hidden_layers ls (T2 c rs) = Ok (T2 c' (map F rs)).
Proof.
  revert c. induction ls as [|l ls IH]; intros c; simpl.
  - intros [= <-]. exists (fun r => r). intros rs. now rewrite map_id.
  - destruct (Nat.eqb_spec (in_features l) c) as [Heq|]; [|discriminate].
    intros Hc. destruct (IH _ Hc) as (F & HF).
    eexists. intros rs. rewrite linear_Ok by (simpl; congruence).
    cbn [rbind]. unfold relu, map2d. cbn [cols rows].
    rewrite map_map, HF, map_map. reflexivity.
Qed.

(** The two halves of [forward] as functions of one example. *)
Lemma forward_rowwise (self : Model) (c w : nat) :
  layers self <> [] -> chain c (layers self) = Some w ->
  exists fm fv : list R -> list R,
    forall rs,
      forward self (T2 c rs) =
        Ok (T2 (Nat.min (w / 2) w) (map fm rs), T2 (w - w / 2) (map fv rs)).
Proof.
  intros Hne Hchain. unfold forward.
  destruct (layers self) as [|out ls _] using rev_ind; [congruence|].
  rewrite removelast_last.
  apply chain_snoc in Hchain as (n' & Hch & Hin & Hw).
  destruct (hidden_layers_rowwise ls c n' Hch) as (F & HF).
  eexists. eexists. intros rs. rewrite HF. cbn [rbind].
  unfold index_last. rewrite last_snoc. cbn [rbind].
  rewrite linear_Ok by (simpl; congruence). cbn [rbind cols rows].
  unfold slice_to, slice_from, map2d. cbn [cols rows].
  rewrite Hw, !map_map. reflexivity.
Qed.

(** X3. [forward] treats the examples of a batch one by one: when it
    returns on a batch, it returns on each part of the batch, and the
    rows of the mean and of the variance of the whole batch are those
    of the parts, in order. *)
Theorem forward_batch_split (self : Model) (c : nat) (rs1 rs2 : list (list R))
    (mean var : Tensor2) :
  forward self (T2 c (rs1 ++ rs2)) = Ok (mean, var) ->
  exists m1 v1 m2 v2,
    forward self (T2 c rs1) = Ok (T2 (cols mean) m1, T2 (cols var) v1) /\
    forward self (T2 c rs2) = Ok (T2 (cols mean) m2, T2 (cols var) v2) /\
    rows mean = m1 ++ m2 /\ rows var = v1 ++ v2 /\
    length m1 = length rs1 /\ length v1 = length rs1.
Proof.
  intros Hf.
  destruct (forward_cases self (T2 c (rs1 ++ rs2))) as (Hidx & Hrun & _).
  assert (Hne : layers self <> []).
  { intros Hl. rewrite (Hidx Hl) in Hf. discriminate. }
  destruct (chain c (layers self)) as [w|] eqn:Hchain;
    [|rewrite (Hrun Hne Hchain) in Hf; discriminate].
  destruct (forward_rowwise self c w Hne Hchain) as (fm & fv & Hrow).
  rewrite Hrow in Hf. injection Hf as <- <-. cbn [cols rows].
  exists (map fm rs1), (map fv rs1), (map fm rs2), (map fv rs2).
  rewrite !Hrow, !map_app, !length_map. repeat split; reflexivity.
Qed.

Lemma forward_batch_split_witness :
  exists mean var m1 v1 m2 v2,
    forward MoreExamples.odd_model (T2 1 ([[2]] ++ [[3]])) = Ok (mean, var) /\
    forward MoreExamples.odd_model (T2 1 [[2]])
      = Ok (T2 (cols mean) m1, T2 (cols var) v1) /\
    forward MoreExamples.odd_model (T2 1 [[3]])
      = Ok (T2 (cols mean) m2, T2 (cols var) v2) /\
    rows mean = m1 ++ m2 /\ rows var = v1 ++ v2 /\
    length m1 = 1%nat /\ length v1 = 1%nat.
Proof.
  eexists. eexists.
  destruct (forward_batch_split MoreExamples.odd_model 1 [[2]] [[3]] _ _ eq_refl)
    as (m1 & v1 & m2 & v2 & H).
  exists m1, v1, m2, v2. split; [reflexivity | exact H].
Defined.
(** *** The reported means *)

Lemma sum_above (a : R) (l : list R) :
  Forall (fun v => a < v) l -> l <> [] -> INR (length l) * a < sum l.
Proof.
  intros Hl Hne. induction Hl as [|x l Hx Hl IH]; [congruence|].
  cbn [length sum foldr]. fold (sum l). rewrite S_INR.
  destruct l as [|x' l'].
  - simpl. lra.
  - assert (INR (length (x' :: l')) * a < sum (x' :: l')) by (apply IH; discriminate).
    lra.
Qed.

Lemma mean_dim0_length (t : Tensor2) :
  wf2 t -> length (mean_dim0 t) = cols t.
Proof.
  intros Hwf. unfold mean_dim0. rewrite length_map.
  now apply MetricsProofs.col_sums_length.
Qed.

(** The mean over the batch of entries that all lie above [a] lies
    above [a]. *)
Lemma mean_dim0_above (a : R) (t : Tensor2) :
  wf2 t -> rows t <> [] ->
  Forall (Forall (fun v => a < v)) (rows t) ->
  Forall (fun v => a < v) (mean_dim0 t).
Proof.
  intros Hwf Hne Habove. unfold mean_dim0.
  assert (Hb : 0 < INR (length (rows t))).
  { apply lt_0_INR. destruct (rows t); [congruence | simpl; lia]. }
  apply Forall_fmap, Forall_lookup_2. intros c s Hs. simpl.
  assert (Hc : (c < cols t)%nat).
  { rewrite <- (MetricsProofs.col_sums_length (cols t) (rows t) Hwf).
    eapply lookup_lt_Some. exact Hs. }
  rewrite (MetricsProofs.col_sums_lookup _ _ c Hwf Hc) in Hs. injection Hs as <-.
  assert (Hcol : Forall (fun v => a < v) (Metrics.column c (rows t))).
  { unfold Metrics.column. apply Forall_fmap, Forall_lookup_2.
    intros i r Hr. simpl.
    pose proof (Forall_lookup_1 _ _ _ _ Hwf Hr) as Hlen. simpl in Hlen.
    destruct (lookup_lt_is_Some_2 r c) as [v Hv]; [lia|].
    rewrite Hv. simpl.
    exact (Forall_lookup_1 _ _ _ _ (Forall_lookup_1 _ _ _ _ Habove Hr) Hv). }
  pose proof (sum_above a _ Hcol) as Hsum.
  rewrite MetricsProofs.column_length in Hsum.
  apply (Rmult_lt_reg_r (INR (length (rows t)))); [exact Hb|].
  unfold Rdiv. rewrite Rmult_assoc, Rinv_l by lra.
  rewrite Rmult_1_r, Rmult_comm. apply Hsum.
  unfold Metrics.column. destruct (rows t); [congruence | discriminate].
Qed.

(** The mean over the batch, column by column. *)
Lemma mean_dim0_lookup (t : Tensor2) (c : nat) :
  wf2 t -> (c < cols t)%nat ->
  mean_dim0 t !! c
    = Some (sum (Metrics.column c (rows t)) / INR (length (rows t))).
Proof.
  intros Hwf Hc. unfold mean_dim0.
  now rewrite list_lookup_fmap, (MetricsProofs.col_sums_lookup _ _ c Hwf Hc).
Qed.

(** X4. [mean_variance] and [mean_expected_value] do not look at the
    teacher predictions.  For the outputs of [forward] on a batch with
    at least one example they return one value per column of the
    variance and of the mean: the sum of the column over the batch
    divided by the size of the batch.  With the floor of [0.001] every
    entry of [mean_variance] is strictly positive. *)
Theorem mean_variance_is_batch_mean (self : Model) (x : Tensor2)
    (outputs : Tensor2 * Tensor2)
    (teacher_predictions teacher_predictions' : Tensor3) :
  variance_lower_bound self = 1 / 1000 ->
  Forall wf_linear (layers self) ->
  (1 <= size0 x)%nat ->
  forward self x = Ok outputs ->
  mean_variance self outputs teacher_predictions'
    = mean_variance self outputs teacher_predictions /\
  mean_expected_value self outputs teacher_predictions'
    = mean_expected_value self outputs teacher_predictions /\
  length (mean_variance self outputs teacher_predictions) = cols outputs.2 /\
  length (mean_expected_value self outputs teacher_predictions) = cols outputs.1 /\
  (forall c, (c < cols outputs.2)%nat ->
     mean_variance self outputs teacher_predictions !! c
       = Some (sum (Metrics.column c (rows outputs.2)) / INR (size0 x))) /\
  (forall c, (c < cols outputs.1)%nat ->
     mean_expected_value self outputs teacher_predictions !! c
       = Some (sum (Metrics.column c (rows outputs.1)) / INR (size0 x))) /\
  Forall (fun v => 0 < v) (mean_variance self outputs teacher_predictions).
Proof.
  intros Hfloor Hwf Hb Hf. destruct outputs as [mean var].
  destruct (forward_cases self x) as (Hidx & Hrun & _).
  assert (Hne : layers self <> []).
  { intros Hl. rewrite (Hidx Hl) in Hf. discriminate. }
  destruct (chain (cols x) (layers self)) as [w|] eqn:Hchain;
    [|rewrite (Hrun Hne eq_refl) in Hf; discriminate].
  destruct (forward_chain self x w Hne Hchain) as (y & Hf' & Hcy & Hly & Hwy).
  specialize (Hwy Hwf).
  pose proof (forward_variance_above_floor self x _ _ Hf') as Habove.
  rewrite Hf' in Hf. injection Hf as <- <-.
  assert (Hhalf : (w / 2 <= w)%nat) by (apply Nat.Div0.div_le_upper_bound; lia).
  assert (Hwm : wf2 (slice_to (w / 2) y)).
  { unfold wf2 in *. cbn [cols rows slice_to]. apply Forall_fmap.
    eapply Forall_impl; [exact Hwy|]. intros r Hr. simpl in *.
    rewrite length_take. lia. }
  assert (Hwv : wf2 (map2d (fun z => ln (1 + exp z) + variance_lower_bound self)
                           (slice_from (w / 2) y))).
  { unfold wf2 in *. cbn [cols rows slice_from map2d]. rewrite map_map.
    apply Forall_fmap. eapply Forall_impl; [exact Hwy|]. intros r Hr. simpl in *.
    rewrite length_map, length_drop. lia. }
  assert (Hlm : length (rows (slice_to (w / 2) y)) = size0 x).
  { cbn [rows slice_to]. now rewrite length_map. }
  assert (Hlv : length (rows (map2d (fun z => ln (1 + exp z) + variance_lower_bound self)
                                    (slice_from (w / 2) y))) = size0 x).
  { cbn [rows slice_from map2d]. now rewrite !length_map. }
  unfold mean_variance, mean_expected_value. cbn [fst snd].
  split; [reflexivity|]. split; [reflexivity|].
  split; [now apply mean_dim0_length|]. split; [now apply mean_dim0_length|].
  split; [intros c Hc; rewrite <- Hlv; now apply mean_dim0_lookup|].
  split; [intros c Hc; rewrite <- Hlm; now apply mean_dim0_lookup|].
  assert (Hrows : rows (map2d (fun z => ln (1 + exp z) + variance_lower_bound self)
                              (slice_from (w / 2) y)) <> []).
  { intros Hnil. rewrite Hnil in Hlv. simpl in Hlv. lia. }
  pose proof (mean_dim0_above _ _ Hwv Hrows Habove) as Hmean.
  eapply Forall_impl; [exact Hmean|]. intros v Hv. simpl in Hv.
  rewrite Hfloor in Hv. lra.
Qed.

Lemma mean_variance_is_batch_mean_witness :
  exists outputs,
    forward Examples.small_model MoreExamples.two_inputs = Ok outputs /\
    mean_variance Examples.small_model outputs MoreExamples.shifted_logits
      = mean_variance Examples.small_model outputs Examples.three_logits /\
    mean_expected_value Examples.small_model outputs MoreExamples.shifted_logits
      = mean_expected_value Examples.small_model outputs Examples.three_logits /\
    length (mean_variance Examples.small_model outputs Examples.three_logits)
      = cols outputs.2 /\
    length (mean_expected_value Examples.small_model outputs Examples.three_logits)
      = cols outputs.1 /\
    (forall c, (c < cols outputs.2)%nat ->
       mean_variance Examples.small_model outputs Examples.three_logits !! c
         = Some (sum (Metrics.column c (rows outputs.2))
                 / INR (size0 MoreExamples.two_inputs))) /\
    (forall c, (c < cols outputs.1)%nat ->
       mean_expected_value Examples.small_model outputs Examples.three_logits !! c
         = Some (sum (Metrics.column c (rows outputs.1))
                 / INR (size0 MoreExamples.two_inputs))) /\
    Forall (fun v => 0 < v)
           (mean_variance Examples.small_model outputs Examples.three_logits).
Proof.
  eexists. split; [reflexivity|].
  apply (mean_variance_is_batch_mean Examples.small_model MoreExamples.two_inputs).
  - reflexivity.
  - destruct small_model_wf as (_ & Hwf & _). exact Hwf.
  - unfold size0, MoreExamples.two_inputs. simpl. lia.
  - reflexivity.
Defined.

(** *** Sampling on an odd width and on an empty batch *)

Lemma for_each_first_raises {St : Type} (n : nat) (body : nat -> St -> Result St)
    (s : St) (e : PyError) :
  (1 <= n)%nat -> body 0%nat s = Raise e -> for_each (range n) body s = Raise e.
Proof.
  intros Hn Hb. unfold range. destruct n as [|n]; [lia|].
  cbn [seq for_each]. now rewrite Hb.
Qed.

(** X6. On a model whose last layer has an odd width, [predict] and
    [predict_logits] raise [RuntimeError] on every batch with at least
    one example: the mean and the variance of an example differ in
    length, and drawing from the distribution built from them fails. *)
Theorem sampling_odd_width_raises (self : Model) (input_ : Tensor2)
    (num_samples : option nat) (g : Generator) (w : nat) :
  layers self <> [] -> Forall wf_linear (layers self) ->
  chain (cols input_) (layers self) = Some w -> Nat.Odd w ->
  0 <= variance_lower_bound self ->
  (1 <= size0 input_)%nat ->
  predict_logits self input_ num_samples g = Raise RuntimeError /\
  predict self input_ num_samples g = Raise RuntimeError.
Proof.
  intros Hne Hwf Hchain Hodd Hfloor Hb.
  assert (Hpl : predict_logits self input_ num_samples g = Raise RuntimeError).
  { destruct (forward_chain self input_ w Hne Hchain) as (y & Hf & Hcy & Hly & Hwy).
    specialize (Hwy Hwf). unfold predict_logits. rewrite Hf. cbn [rbind].
    match goal with |- rbind ?loop _ = _ =>
      assert (Hloop : loop = Raise RuntimeError); [|now rewrite Hloop] end.
    apply for_each_first_raises; [exact Hb|].
    unfold size0 in Hb. rewrite <- Hly in Hb.
    destruct (rows y) as [|r0 rs] eqn:Hrows; [simpl in Hb; lia|].
    assert (Hr0 : length r0 = w).
    { unfold wf2 in Hwy. rewrite Hrows in Hwy.
      apply Forall_inv in Hwy. congruence. }
    unfold index. cbn [rows slice_to slice_from map2d]. rewrite Hrows.
    cbn [map lookup list_lookup rbind].
    unfold MultivariateNormal_diag. rewrite forallb_positive.
    - cbn [rbind]. unfold rsample, standard_normal. cbn [loc scale].
      rewrite !length_map, length_take, length_drop, Hr0.
      destruct Hodd as [q Hq].
      assert (Hdiv : (w / 2)%nat = q).
      { rewrite Hq. replace (2 * q + 1)%nat with (1 + q * 2)%nat by lia.
        rewrite Nat.div_add by lia. reflexivity. }
      rewrite Hdiv.
      destruct (Nat.eqb_spec (w - q) (Nat.min q w)); [lia | reflexivity].
    - apply Forall_fmap, Forall_true. intros z. simpl.
      pose proof (softplus_pos z). lra. }
  split; [exact Hpl|]. rewrite predict_unfold, Hpl. reflexivity.
Qed.

Lemma sampling_odd_width_raises_witness :
  predict_logits MoreExamples.odd_model MoreExamples.two_inputs None
                 Examples.counting_noise = Raise RuntimeError /\
  predict MoreExamples.odd_model MoreExamples.two_inputs None
          Examples.counting_noise = Raise RuntimeError.
Proof.
  apply (sampling_odd_width_raises MoreExamples.odd_model MoreExamples.two_inputs
           None Examples.counting_noise 3).
  - discriminate.
  - apply Forall_singleton. unfold wf_linear. simpl.
    split; [reflexivity|]. split; [repeat constructor | reflexivity].
  - reflexivity.
  - exists 1%nat. reflexivity.
  - simpl. lra.
  - unfold size0, MoreExamples.two_inputs. simpl. lia.
Defined.

(** X7. On a batch without examples, whenever the layers fit the width
    of the batch, [predict] and [predict_logits] return a tensor without
    cells, of shape [(0, num_samples, output_size / 2)], and leave the
    generator as it is. *)
Theorem sampling_empty_batch (self : Model) (input_ : Tensor2)
    (num_samples : option nat) (g : Generator) (w : nat) :
  layers self <> [] -> chain (cols input_) (layers self) = Some w ->
  rows input_ = [] ->
  predict_logits self input_ num_samples g =
    Ok (T3 (default 50%nat num_samples) (output_size self / 2) [], g) /\
  predict self input_ num_samples g =
    Ok (T3 (default 50%nat num_samples) (output_size self / 2) [], g).
Proof.
  intros Hne Hchain Hrows.
  assert (Hpl : predict_logits self input_ num_samples g =
                Ok (T3 (default 50%nat num_samples) (output_size self / 2) [], g)).
  { destruct (forward_chain self input_ w Hne Hchain) as (y & Hf & _).
    unfold predict_logits. rewrite Hf. cbn [rbind].
    unfold size0. rewrite Hrows. reflexivity. }
  split; [exact Hpl|]. rewrite predict_unfold, Hpl. reflexivity.
Qed.

Lemma sampling_empty_batch_witness :
  predict_logits Examples.small_model MoreExamples.no_inputs (Some 7%nat)
                 Examples.counting_noise =
    Ok (T3 7 (2 / 2) [], Examples.counting_noise) /\
  predict Examples.small_model MoreExamples.no_inputs (Some 7%nat)
          Examples.counting_noise =
    Ok (T3 7 (2 / 2) [], Examples.counting_noise).
Proof.
  apply (sampling_empty_batch Examples.small_model MoreExamples.no_inputs
           (Some 7%nat) Examples.counting_noise 2);
    [discriminate | reflexivity | reflexivity].
Defined.

(** *** Centring and the transform of [predict] *)

Lemma centred_row_shift (r : list R) (c : R) :
  map (fun v => v - default 0 (last (map (fun v => v + c) r)))
      (map (fun v => v + c) r)
  = map (fun v => v - default 0 (last r)) r.
Proof.
  change (map (fun v => v + c) r) with ((fun v => v + c) <$> r) at 1.
  rewrite fmap_last, map_map.
  destruct (last r) as [z|] eqn:Hz; simpl.
  - apply map_ext. intros v. ring.
  - apply last_None in Hz. subst r. reflexivity.
Qed.

Lemma centred_logits_shift (logits logits' : Tensor3) :
  shifted logits logits' -> centred_logits logits' = centred_logits logits.
Proof.
  intros (Hd1 & Hd2 & Hcells). unfold centred_logits. rewrite Hd1, Hd2. f_equal.
  induction Hcells as [|e e' es es' He _ IH]; [reflexivity|].
  cbn [map]. rewrite IH. f_equal.
  induction He as [|r r' rs rs' [c ->] _ IHr]; [reflexivity|].
  cbn [map]. rewrite IHr. f_equal. apply centred_row_shift.
Qed.

(** X8. With [scale_teacher_logits=True], the teacher predictions do
    not change when a constant is added to all the logits of a member
    for an example: two teachers whose logits differ in this way give
    the same result, be it a tensor or the [IndexError] for a teacher
    without classes. *)
Theorem centring_shift_invariant (self self' : Model) (inputs inputs' : Tensor2)
    (logits logits' : Tensor3) :
  scale_teacher_logits self = true -> scale_teacher_logits self' = true ->
  get_logits (teacher self) inputs = Ok logits ->
  get_logits (teacher self') inputs' = Ok logits' ->
  shifted logits logits' ->
  _generate_teacher_predictions self' inputs'
    = _generate_teacher_predictions self inputs.
Proof.
  intros Hs Hs' Hl Hl' Hshift.
  pose proof (centred_logits_shift _ _ Hshift) as Hc.
  destruct Hshift as (_ & Hd2 & _).
  destruct (Nat.eq_dec (dim2 logits) 0%nat) as [H0|Hpos].
  - unfold _generate_teacher_predictions, select_last.
    rewrite Hl, Hl', Hs, Hs'. cbn [rbind]. now rewrite Hd2, H0.
  - rewrite (generate_teacher_predictions_scaled self inputs logits Hs Hl Hpos).
    rewrite (generate_teacher_predictions_scaled self' inputs' logits' Hs' Hl')
      by congruence.
    now rewrite Hc.
Qed.

Lemma centring_shift_invariant_witness :
  _generate_teacher_predictions MoreExamples.shifted_model Examples.small_input
    = _generate_teacher_predictions Examples.centring_model Examples.small_input.
Proof.
  apply (centring_shift_invariant Examples.centring_model
           MoreExamples.shifted_model Examples.small_input Examples.small_input
           Examples.three_logits MoreExamples.shifted_logits);
    try reflexivity.
  split; [reflexivity|]. split; [reflexivity|].
  repeat constructor. exists 10. reflexivity.
Defined.

Lemma sum_exp_centred (r : list R) (z : R) :
  sum (map exp (map (fun v => v - z) r)) = sum (map exp r) / exp z.
Proof.
  induction r as [|v r IH]; simpl; [unfold Rdiv; ring|].
  fold (sum (map exp (map (fun v => v - z) r))) (sum (map exp r)).
  rewrite IH. unfold Rminus. rewrite exp_plus, exp_Ropp.
  field. apply exp_neq_0.
Qed.

Lemma sum_exp_snoc (r : list R) (z : R) :
  sum (map exp (r ++ [z])) = sum (map exp r) + exp z.
Proof.
  induction r as [|v r IH]; simpl; [lra|].
  fold (sum (map exp (r ++ [z]))) (sum (map exp r)). rewrite IH. ring.
Qed.

(** The transform of [predict] on a centred row without its last entry
    is the softmax of the whole row without its last entry. *)
Lemma softmax_like_centred (r0 : list R) (z : R) :
  softmax_like (map (fun v => v - z) r0)
  = map (fun v => exp v / sum (map exp (r0 ++ [z]))) r0.
Proof.
  unfold softmax_like. rewrite map_map, sum_exp_centred, sum_exp_snoc.
  apply map_ext. intros v.
  pose proof (sum_exp_nonneg r0). pose proof (exp_pos z).
  unfold Rminus. rewrite exp_plus, exp_Ropp. field. split; lra.
Qed.

(** X9. The transform that [predict] applies to its draws, applied to
    the centred teacher logits that [_generate_teacher_predictions]
    returns with [scale_teacher_logits=True], gives the softmax
    probabilities of the teacher's logits for all classes but the
    last: the entry for class [k] is [exp(l_k) / sum_j exp(l_j)], the
    sum running over all the classes of the teacher. *)
Theorem centred_transform_is_softmax (self : Model) (inputs : Tensor2)
    (logits : Tensor3) :
  scale_teacher_logits self = true ->
  get_logits (teacher self) inputs = Ok logits ->
  wf3 logits -> (1 <= dim2 logits)%nat ->
  exists returned,
    _generate_teacher_predictions self inputs = Ok returned /\
    cells (broadcast_last Rdiv (map3d exp returned)
             (map3d (fun v => v + 1) (sum_keepdim (map3d exp returned))))
    = map (map (fun r => map (fun v => exp v / sum (map exp r)) (removelast r)))
          (cells logits).
Proof.
  intros Hs Hl Hwf Hk. exists (drop_last (centred_logits logits)).
  split; [apply generate_teacher_predictions_scaled; [exact Hs | exact Hl | lia]|].
  rewrite softmax_samples_eq. cbn [cells softmax_like_samples drop_last centred_logits].
  rewrite !map_map. apply Forall_fmap_ext_1.
  eapply Forall_impl; [exact Hwf|]. intros e [_ He]. simpl.
  rewrite !map_map. apply Forall_fmap_ext_1.
  eapply Forall_impl; [exact He|]. intros r Hr. simpl in Hr.
  destruct r as [|z r0 _] using rev_ind; [simpl in Hr; lia|].
  rewrite last_snoc. cbn [default]. rewrite map_app. cbn [map].
  rewrite !removelast_last. apply softmax_like_centred.
Qed.

Lemma centred_transform_is_softmax_witness :
  exists returned,
    _generate_teacher_predictions Examples.centring_model Examples.small_input
      = Ok returned /\
    cells (broadcast_last Rdiv (map3d exp returned)
             (map3d (fun v => v + 1) (sum_keepdim (map3d exp returned))))
    = [[[exp 1 / sum (map exp [1; 2; 3]); exp 2 / sum (map exp [1; 2; 3])]]].
Proof.
  apply (centred_transform_is_softmax Examples.centring_model Examples.small_input
           Examples.three_logits).
  - reflexivity.
  - reflexivity.
  - repeat constructor.
  - simpl. lia.
Defined.

End LogitsProbabilityDistributionRestProofs.

(** ** More properties of the regression dataset *)

Module GaussianSinusRestProofs.

Import GaussianSinus GaussianSinusRest.
Open Scope R_scope.

(** The stand-in of the worked instances keeps the laws. *)
#[global] Instance fixed_random_laws : NumpyRandomLaws unit.
Proof.
  split.
  - intros low high size s. simpl. apply length_replicate.
  - intros low high size s Hlt. simpl. apply Forall_replicate. lra.
  - intros mean cov s y. simpl. now intros [= <-].
  - intros a s. reflexivity.
Qed.

Section Dataset.

Context {RS : Type} `{NumpyRandomLaws RS}.

(** *** Writing a dataset *)

(** What a construction that samples training data leaves behind. *)
Lemma train_construction (store_file : Path) (reuse_data : bool) (n : nat)
    (w w' : World RS) (self : Self) :
  path_exists store_file w && reuse_data = false ->
  __init__ store_file true reuse_data n w = (Ok self, w') ->
  exists data,
    files w' = <[store_file := data]> (files w) /\
    length data = n /\
    Forall (fun row => exists a b, row = [a; b] /\ -3 <= a < 3) data /\
    self = {| n_samples := n; train := true; file := store_file |}.
Proof.
  intros Hreuse. unfold __init__. cbn [file]. rewrite Hreuse.
  unfold sample_new_data, mbind. cbn [train file n_samples].
  unfold mkdir. destruct (existsb _ _); [discriminate|].
  unfold random_uniform. cbn [random_state files dirs].
  pose proof (uniform_length (-3) 3 n (random_state w)) as Hxl.
  pose proof (uniform_range (-3) 3 n (random_state w) ltac:(lra)) as Hxr.
  destruct (uniform (-3) 3 n (random_state w)) as [x s1]. cbn [fst] in Hxl, Hxr.
  unfold random_multivariate_normal. cbn [random_state files dirs].
  match goal with |- context [multivariate_normal ?m ?c s1] =>
    pose proof (multivariate_normal_length m c s1) as Hyl;
    destruct (multivariate_normal m c s1) as [[y|e] s2] end;
    [|discriminate].
  specialize (Hyl y eq_refl). rewrite length_map in Hyl.
  unfold read_local, lift, column_stack. unfold mret.
  rewrite Hyl, Nat.eqb_refl.
  unfold random_shuffle. cbn [random_state files dirs].
  match goal with |- context [shuffle ?a s2] =>
    pose proof (shuffle_permutation a s2) as Hperm;
    destruct (shuffle a s2) as [data s3] end.
  cbn [fst] in Hperm.
  unfold savetxt. cbn [files dirs random_state].
  destruct (bool_decide _); [discriminate|].
  destruct (negb _); [discriminate|].
  intros [= <- <-]. exists data. cbn [files].
  split; [reflexivity|]. split; [|split; [|reflexivity]].
  - rewrite Hperm, length_zip_with. lia.
  - rewrite Hperm. clear -Hxr Hyl. revert Hyl.
    revert y. induction Hxr as [|a x Ha _ IH]; intros [|b y]; simpl;
      try constructor; eauto.
Qed.

(** X10. A construction with [train=True] that samples new data and
    returns has written to [store_file] exactly [n_samples] rows, each
    an input in [[-3, 3)] followed by a target, has left every other
    file as it was, and returns an object whose [__len__] is
    [n_samples]. *)
Theorem train_construction_writes (store_file : Path) (reuse_data : bool)
    (n : nat) (w w' : World RS) (self : Self) :
  path_exists store_file w && reuse_data = false ->
  __init__ store_file true reuse_data n w = (Ok self, w') ->
  __len__ self = n /\
  exists data,
    files w' !! store_file = Some data /\
    length data = n /\
    Forall (fun row => exists a b, row = [a; b] /\ -3 <= a < 3) data /\
    forall p, p <> store_file -> files w' !! p = files w !! p.
Proof.
  intros Hreuse Hrun.
  destruct (train_construction _ _ _ _ _ _ Hreuse Hrun)
    as (data & Hfiles & Hlen & Hrows & ->).
  split; [reflexivity|]. exists data. rewrite Hfiles.
  split; [apply lookup_insert_eq|]. split; [exact Hlen|]. split; [exact Hrows|].
  intros p Hp. now apply lookup_insert_ne.
Qed.

(** *** Reusing a dataset *)

(** A construction that reuses a stored file only compares the number
    of its rows with [n_samples - 1]. *)
Lemma reuse_construction (store_file : Path) (train : bool) (n : nat)
    (w : World RS) (data : list (list R)) :
  files w !! store_file = Some (data : Array) ->
  __init__ store_file train true n w =
    (if Z.eqb (Z.of_nat n - 1) (Z.of_nat (length data))
     then Ok {| n_samples := n; train := train; file := store_file |}
     else Raise AssertionError, w).
Proof.
  intros Hdata. unfold __init__, path_exists. cbn [file]. rewrite Hdata.
  rewrite bool_decide_eq_true_2 by eauto. cbn [orb andb].
  unfold mbind, validate_dataset, mbind, read_rows. cbn [file n_samples].
  rewrite Hdata. destruct (Z.eqb _ _); reflexivity.
Qed.

(** X11. A file written by a construction with [n_samples = n] is
    refused by every later construction with [reuse_data=True] and the
    same [n_samples], which raises [AssertionError]: the check compares
    the number of rows with [n_samples - 1], so the file is accepted
    with [n_samples = n + 1].  Neither construction changes the world. *)
Theorem reuse_after_write (store_file : Path) (reuse_data train' : bool)
    (n : nat) (w w' : World RS) (self : Self) :
  path_exists store_file w && reuse_data = false ->
  __init__ store_file true reuse_data n w = (Ok self, w') ->
  __init__ store_file train' true n w' = (Raise AssertionError, w') /\
  __init__ store_file train' true (S n) w' =
    (Ok {| n_samples := S n; train := train'; file := store_file |}, w').
Proof.
  intros Hreuse Hrun.
  destruct (train_construction _ _ _ _ _ _ Hreuse Hrun)
    as (data & Hfiles & Hlen & _ & _).
  assert (Hdata : files w' !! store_file = Some (data : Array))
    by (rewrite Hfiles; apply lookup_insert_eq).
  rewrite !(reuse_construction _ _ _ _ data Hdata), Hlen. split.
  - destruct (Z.eqb_spec (Z.of_nat n - 1) (Z.of_nat n)); [lia | reflexivity].
  - destruct (Z.eqb_spec (Z.of_nat (S n) - 1) (Z.of_nat n)); [reflexivity | lia].
Qed.

(** *** Reading a dataset *)

Lemma find_row_lookup (rows : list (list R)) (count i : nat) :
  find_row rows count (Z.of_nat (count + i)) = rows !! i.
Proof.
  revert count i. induction rows as [|row rows IH]; intros count i; simpl.
  - reflexivity.
  - destruct i as [|i].
    + rewrite Nat.add_0_r, Z.eqb_refl. reflexivity.
    + destruct (Z.eqb_spec (Z.of_nat count) (Z.of_nat (count + S i))); [lia|].
      replace (count + S i)%nat with (S count + i)%nat by lia. apply IH.
Qed.

Lemma find_row_before (rows : list (list R)) (count : nat) (index : Z) :
  (index < Z.of_nat count)%Z -> find_row rows count index = None.
Proof.
  revert count. induction rows as [|row rows IH]; intros count Hlt; simpl.
  - reflexivity.
  - destruct (Z.eqb_spec (Z.of_nat count) index); [lia|]. apply IH. lia.
Qed.

(** The row that [__getitem__] keeps. *)
Lemma find_row_spec (rows : list (list R)) (index : Z) :
  find_row rows 0 index =
    if Z.ltb index 0 then None else rows !! Z.to_nat index.
Proof.
  destruct (Z.ltb_spec index 0).
  - apply find_row_before. lia.
  - rewrite <- (find_row_lookup rows 0 (Z.to_nat index)). f_equal. lia.
Qed.

Lemma getitem_cases (self : Self) (index : Z) (w : World RS) (rows : list (list R)) :
  files w !! file self = Some (rows : Array) ->
  __getitem__ self index w =
    if Z.ltb index 0 then Throws TypeError
    else match rows !! Z.to_nat index with
         | None => Throws TypeError
         | Some sample =>
             match last sample with
             | None => Throws (Listed IndexError)
             | Some targets => Returns (removelast sample, [targets])
             end
         end.
Proof.
  intros Hrows. unfold __getitem__, read_rows. rewrite Hrows. cbn [fst].
  rewrite find_row_spec. destruct (Z.ltb index 0); reflexivity.
Qed.

(** X12. On a stored file, [__getitem__] with the number of a row
    returns the fields of that row but the last as inputs and the last
    field alone as target.  With a negative index, or one that is not
    below the number of rows, it raises [TypeError], not [IndexError];
    on a row without fields it raises [IndexError]. *)
Theorem getitem_outcome (self : Self) (index : Z) (w : World RS) (rows : list (list R)) :
  files w !! file self = Some (rows : Array) ->
  ((index < 0 \/ Z.of_nat (length rows) <= index)%Z ->
   __getitem__ self index w = Throws TypeError) /\
  (forall inputs targets,
     rows !! Z.to_nat index = Some (inputs ++ [targets]) -> (0 <= index)%Z ->
     __getitem__ self index w = Returns (inputs, [targets])) /\
  (rows !! Z.to_nat index = Some [] -> (0 <= index)%Z ->
   __getitem__ self index w = Throws (Listed IndexError)).
Proof.
  intros Hrows. rewrite (getitem_cases self index w rows Hrows).
  split; [|split].
  - intros [Hneg | Hbig].
    + destruct (Z.ltb_spec index 0); [reflexivity | lia].
    + destruct (Z.ltb index 0); [reflexivity|].
      rewrite lookup_ge_None_2 by lia. reflexivity.
  - intros inputs targets Hrow Hpos.
    destruct (Z.ltb_spec index 0); [lia|].
    now rewrite Hrow, last_snoc, removelast_last.
  - intros Hrow Hpos. destruct (Z.ltb_spec index 0); [lia|].
    now rewrite Hrow.
Qed.

(** X13. After a construction with [train=True] that has sampled new
    data, [__getitem__] returns, for every index from [0] to
    [__len__ - 1], one input between [-3] and [3] and one target, and
    raises [TypeError] at the index [__len__]. *)
Theorem getitem_after_construction (store_file : Path) (reuse_data : bool)
    (n : nat) (w w' : World RS) (self : Self) :
  path_exists store_file w && reuse_data = false ->
  __init__ store_file true reuse_data n w = (Ok self, w') ->
  (forall i, (i < __len__ self)%nat ->
     exists a b, __getitem__ self (Z.of_nat i) w' = Returns ([a], [b]) /\
                 -3 <= a <= 3) /\
  __getitem__ self (Z.of_nat (__len__ self)) w' = Throws TypeError.
Proof.
  intros Hreuse Hrun.
  destruct (train_construction _ _ _ _ _ _ Hreuse Hrun)
    as (data & Hfiles & Hlen & Hrows & ->).
  assert (Hdata : files w' !! store_file = Some (data : Array))
    by (rewrite Hfiles; apply lookup_insert_eq).
  unfold __len__. cbn [n_samples]. split.
  - intros i Hi.
    destruct (lookup_lt_is_Some_2 data i) as [row Hrow]; [lia|].
    destruct (Forall_lookup_1 _ _ _ _ Hrows Hrow) as (a & b & -> & Ha).
    exists a, b. split; [|lra].
    rewrite (getitem_cases {| n_samples := n; train := true; file := store_file |}
               _ _ data Hdata).
    destruct (Z.ltb_spec (Z.of_nat i) 0); [lia|].
    rewrite Nat2Z.id, Hrow. reflexivity.
  - rewrite (getitem_cases {| n_samples := n; train := true; file := store_file |}
               _ _ data Hdata).
    destruct (Z.ltb (Z.of_nat n) 0); [reflexivity|].
    rewrite Nat2Z.id, lookup_ge_None_2 by lia. reflexivity.
Qed.

(** X14. [get_full_data] on a stored file leaves the world as it is.
    It raises [ValueError] when two rows of the file differ in length
    and returns the rows otherwise; [__getitem__] then returns at the
    index of every row that has a field, with one target and one input
    for each other field of the row. *)
Theorem get_full_data_outcome (self : Self) (w : World RS) (rows : list (list R)) :
  files w !! file self = Some (rows : Array) ->
  ((exists k, Forall (fun r => length r = k) rows) ->
   get_full_data self w = (Ok rows, w)) /\
  ((forall k, ~ Forall (fun r => length r = k) rows) ->
   get_full_data self w = (Raise ValueError, w)) /\
  (forall (data : list (list R)) w' i row,
     get_full_data self w = (Ok (data : Array), w') ->
     data !! i = Some row -> row <> [] ->
     exists inputs targets,
       __getitem__ self (Z.of_nat i) w = Returns (inputs, [targets]) /\
       (length inputs + 1)%nat = length row).
Proof.
  intros Hrows.
  assert (Hrun : get_full_data self w =
            (match rows with
             | [] => Ok []
             | row :: rest =>
                 if forallb (fun r => Nat.eqb (length r) (length row)) rest
                 then Ok rows else Raise ValueError
             end, w)).
  { unfold get_full_data, mbind, read_rows. rewrite Hrows.
    destruct rows as [|row rest]; [reflexivity|].
    destruct (forallb _ rest); reflexivity. }
  split; [|split].
  - intros [k Hk]. rewrite Hrun. destruct rows as [|row rest]; [reflexivity|].
    inversion Hk as [|? ? Hrow Hrest]; subst.
    rewrite (proj2 (forallb_forall _ rest)); [reflexivity|].
    intros r Hr. apply Nat.eqb_eq.
    rewrite Forall_forall in Hrest. apply Hrest. now apply list_elem_of_In.
  - intros Hragged. rewrite Hrun. destruct rows as [|row rest].
    + exfalso. apply (Hragged 0%nat). constructor.
    + destruct (forallb _ rest) eqn:Hall; [|reflexivity].
      exfalso. apply (Hragged (length row)). constructor; [reflexivity|].
      rewrite Forall_forall. intros r Hr. apply Nat.eqb_eq.
      rewrite forallb_forall in Hall. apply Hall. now apply list_elem_of_In.
  - intros data w' i row Hget Hrow Hfields.
    rewrite Hrun in Hget.
    assert (data = rows) as ->.
    { destruct rows as [|row0 rest]; [now injection Hget as <- _|].
      destruct (forallb _ rest); [now injection Hget as <- _ | discriminate]. }
    rewrite (getitem_cases _ _ _ rows Hrows).
    destruct (Z.ltb_spec (Z.of_nat i) 0); [lia|].
    rewrite Nat2Z.id, Hrow.
    destruct row as [|targets inputs _] using rev_ind; [congruence|].
    rewrite last_snoc, removelast_last.
    exists inputs, targets. split; [reflexivity|].
    now rewrite length_app.
Qed.

(** *** What a refused or failed construction leaves behind *)

(** X16. A construction with [train=False] that does not reuse a
    stored file, in a world where no directory above [store_file] is
    taken by a file, raises [NameError] after it has created those
    directories and drawn the [n_samples] inputs: the directories and
    the state of numpy's generator have changed, the files have not. *)
Theorem test_construction_side_effects (store_file : Path) (reuse_data : bool)
    (n : nat) (w : World RS) :
  path_exists store_file w && reuse_data = false ->
  existsb (fun q => bool_decide (is_Some (files w !! q)))
          (ancestors (parent store_file)) = false ->
  __init__ store_file false reuse_data n w =
    (Raise NameError,
     {| files := files w;
        dirs := dirs w ∪ list_to_set (ancestors (parent store_file));
        random_state := (uniform (-3) 3 n (random_state w)).2 |}).
Proof.
  intros Hreuse Hfree. unfold __init__. cbn [file]. rewrite Hreuse.
  unfold sample_new_data, mbind, mkdir. cbn [train file n_samples].
  rewrite Hfree. unfold random_uniform. cbn [random_state files dirs].
  destruct (uniform (-3) 3 n (random_state w)) as [x s1]. reflexivity.
Qed.

(** X17. A construction with [reuse_data=True] on a path that exists
    never changes the world: it returns exactly when the stored file
    has [n_samples - 1] rows, raises [AssertionError] for any other
    number of rows, so always for [n_samples = 0], and raises
    [IsADirectoryError] when the path is a directory. *)
Theorem reuse_outcome (store_file : Path) (train : bool) (n : nat) (w : World RS) :
  path_exists store_file w = true ->
  exists r,
    __init__ store_file train true n w = (r, w) /\
    (forall rows : list (list R),
       files w !! store_file = Some (rows : Array) ->
       ((Z.of_nat n - 1)%Z = Z.of_nat (length rows) ->
        r = Ok {| n_samples := n; train := train; file := store_file |}) /\
       ((Z.of_nat n - 1)%Z <> Z.of_nat (length rows) ->
        r = Raise AssertionError) /\
       (n = 0%nat -> r = Raise AssertionError)) /\
    (files w !! store_file = None -> r = Raise IsADirectoryError).
Proof.
  intros Hex. unfold __init__. cbn [file]. rewrite Hex. cbn [andb].
  unfold mbind, validate_dataset, mbind, read_rows. cbn [file n_samples].
  unfold path_exists in Hex.
  destruct (files w !! store_file) as [rows|] eqn:Hrows.
  - exists (if Z.eqb (Z.of_nat n - 1) (Z.of_nat (length rows))
            then Ok {| n_samples := n; train := train; file := store_file |}
            else Raise AssertionError).
    split; [destruct (Z.eqb _ _); reflexivity|]. split; [|discriminate].
    intros rows' [= <-].
    destruct (Z.eqb_spec (Z.of_nat n - 1) (Z.of_nat (length rows)));
      (split; [|split]); intros; try reflexivity; try lia; congruence.
  - rewrite (bool_decide_eq_false_2 (is_Some None)) in Hex by (intros [? ?]; discriminate).
    cbn [orb] in Hex. rewrite Hex.
    eexists. split; [reflexivity|]. split; [discriminate | reflexivity].
Qed.

End Dataset.

Lemma test_construction_side_effects_witness :
  __init__ Examples.store_file false false 3 Examples.empty_world =
    (Raise NameError,
     {| files := ∅;
        dirs := ∅ ∪ list_to_set (ancestors (parent Examples.store_file));
        random_state := tt |}).
Proof.
  exact (test_construction_side_effects Examples.store_file false 3
           Examples.empty_world eq_refl eq_refl).
Defined.

Lemma reuse_outcome_witness :
  exists r,
    __init__ Examples.store_file true true 3 MoreExamples.regular_world
      = (r, MoreExamples.regular_world) /\
    r = Ok {| n_samples := 3; train := true; file := Examples.store_file |}.
Proof.
  destruct (reuse_outcome Examples.store_file true 3 MoreExamples.regular_world
              eq_refl) as (r & Hrun & Hfile & _).
  exists r. split; [exact Hrun|].
  apply (Hfile [[1; 2]; [3; 4]]); reflexivity.
Defined.

Lemma train_construction_writes_witness :
  exists self w',
    __init__ Examples.store_file true false 3 Examples.empty_world = (Ok self, w') /\
    __len__ self = 3%nat /\
    exists data,
      files w' !! Examples.store_file = Some data /\
      length data = 3%nat /\
      Forall (fun row => exists a b, row = [a; b] /\ -3 <= a < 3) data /\
      forall p, p <> Examples.store_file ->
                files w' !! p = files Examples.empty_world !! p.
Proof.
  eexists. eexists. split; [reflexivity|].
  refine (train_construction_writes Examples.store_file false 3
            Examples.empty_world _ _ _ _); reflexivity.
Defined.

Lemma reuse_after_write_witness :
  exists self w',
    __init__ Examples.store_file true false 3 Examples.empty_world = (Ok self, w') /\
    __init__ Examples.store_file false true 3 w' = (Raise AssertionError, w') /\
    __init__ Examples.store_file false true 4 w' =
      (Ok {| n_samples := 4; train := false; file := Examples.store_file |}, w').
Proof.
  eexists. eexists. split; [reflexivity|].
  refine (reuse_after_write Examples.store_file false false 3
            Examples.empty_world _ _ _ _); reflexivity.
Defined.

Lemma getitem_outcome_witness :
  __getitem__ MoreExamples.stored_dataset (-1) MoreExamples.stored_world
    = Throws TypeError /\
  __getitem__ MoreExamples.stored_dataset 3 MoreExamples.stored_world
    = Throws TypeError /\
  __getitem__ MoreExamples.stored_dataset 1 MoreExamples.stored_world
    = Returns ([3], [4]) /\
  __getitem__ MoreExamples.stored_dataset 2 MoreExamples.stored_world
    = Throws (Listed IndexError).
Proof.
  assert (Hrows : files MoreExamples.stored_world !! file MoreExamples.stored_dataset
                  = Some ([[1; 2]; [3; 4]; []] : Array)) by reflexivity.
  split; [|split; [|split]].
  - apply (proj1 (getitem_outcome MoreExamples.stored_dataset (-1)
                    MoreExamples.stored_world _ Hrows)). left. lia.
  - apply (proj1 (getitem_outcome MoreExamples.stored_dataset 3
                    MoreExamples.stored_world _ Hrows)). right. simpl. lia.
  - apply (proj1 (proj2 (getitem_outcome MoreExamples.stored_dataset 1
                           MoreExamples.stored_world _ Hrows)) [3] 4);
      [reflexivity | lia].
  - apply (proj2 (proj2 (getitem_outcome MoreExamples.stored_dataset 2
                           MoreExamples.stored_world _ Hrows)));
      [reflexivity | lia].
Defined.

Lemma getitem_after_construction_witness :
  exists self w',
    __init__ Examples.store_file true false 3 Examples.empty_world = (Ok self, w') /\
    (forall i, (i < __len__ self)%nat ->
       exists a b, __getitem__ self (Z.of_nat i) w' = Returns ([a], [b]) /\
                   -3 <= a <= 3) /\
    __getitem__ self (Z.of_nat (__len__ self)) w' = Throws TypeError.
Proof.
  eexists. eexists. split; [reflexivity|].
  refine (getitem_after_construction Examples.store_file false 3
            Examples.empty_world _ _ _ _); reflexivity.
Defined.

Lemma get_full_data_outcome_witness :
  get_full_data MoreExamples.stored_dataset MoreExamples.regular_world
    = (Ok [[1; 2]; [3; 4]], MoreExamples.regular_world) /\
  get_full_data MoreExamples.stored_dataset MoreExamples.stored_world
    = (Raise ValueError, MoreExamples.stored_world) /\
  exists inputs targets,
    __getitem__ MoreExamples.stored_dataset (Z.of_nat 1) MoreExamples.regular_world
      = Returns (inputs, [targets]) /\
    (length inputs + 1)%nat = length [3; 4].
Proof.
  assert (Hregular :
    files MoreExamples.regular_world !! file MoreExamples.stored_dataset
    = Some ([[1; 2]; [3; 4]] : Array)) by reflexivity.
  assert (Hstored :
    files MoreExamples.stored_world !! file MoreExamples.stored_dataset
    = Some ([[1; 2]; [3; 4]; []] : Array)) by reflexivity.
  split; [|split].
  - apply (proj1 (get_full_data_outcome MoreExamples.stored_dataset
                    MoreExamples.regular_world _ Hregular)).
    exists 2%nat. repeat constructor.
  - apply (proj1 (proj2 (get_full_data_outcome MoreExamples.stored_dataset
                           MoreExamples.stored_world _ Hstored))).
    intros k Hk. inversion Hk as [|? ? H1 Hk1]; subst.
    inversion Hk1 as [|? ? H2 Hk2]; subst.
    inversion Hk2 as [|? ? H3 _]; subst. discriminate.
  - apply (proj2 (proj2 (get_full_data_outcome MoreExamples.stored_dataset
                           MoreExamples.regular_world _ Hregular))
             [[1; 2]; [3; 4]] MoreExamples.regular_world 1%nat [3; 4]);
      [reflexivity | reflexivity | discriminate].
Defined.

End GaussianSinusRestProofs.

(** ** Properties of the accuracy loop *)

Module MnistEnsembleTestProofs.

Import MnistEnsembleTest.
Open Scope R_scope.

Section GetAccuracy.

Context {Inputs Labels Prediction St : Type}.
Variable predict : Inputs -> St -> Outcome (Prediction * St).
Variable accuracy : Labels -> Prediction -> Outcome R.

(** The loop counts the batches and adds up their accuracies, and it
    ends with the first exception of [predict] or [accuracy]. *)
Lemma accumulate_batch_accuracies (data_loader : list (Inputs * Labels))
    (acc : R) (k : nat) (st : St) :
  accumulate predict accuracy data_loader acc k st =
    match batch_accuracies predict accuracy data_loader st with
    | Returns (accs, st') =>
        Returns (acc + Torch.sum accs, (k + length data_loader)%nat, st')
    | Throws e => Throws e
    end.
Proof.
  revert acc k st.
  induction data_loader as [|[inputs labels] rest IH]; intros acc k st;
    cbn [accumulate batch_accuracies length].
  - cbn [Torch.sum foldr]. now rewrite Rplus_0_r, Nat.add_0_r.
  - destruct (predict inputs st) as [[prediction st1]|e]; cbn [obind];
      [|reflexivity].
    destruct (accuracy labels prediction) as [a|e]; cbn [obind]; [|reflexivity].
    rewrite IH.
    destruct (batch_accuracies predict accuracy rest st1) as [[accs st']|e];
      cbn [obind]; [|reflexivity].
    cbn [Torch.sum foldr length]. fold (Torch.sum accs).
    replace (acc + a + Torch.sum accs) with (acc + (a + Torch.sum accs)) by ring.
    now replace (S k + length rest)%nat with (k + S (length rest))%nat by lia.
Qed.

Lemma batch_accuracies_length (data_loader : list (Inputs * Labels))
    (st st' : St) (accs : list R) :
  batch_accuracies predict accuracy data_loader st = Returns (accs, st') ->
  length accs = length data_loader.
Proof.
  revert st accs.
  induction data_loader as [|[inputs labels] rest IH]; intros st accs;
    cbn [batch_accuracies].
  - now intros [= <- _].
  - destruct (predict inputs st) as [[prediction st1]|e]; cbn [obind];
      [|discriminate].
    destruct (accuracy labels prediction) as [a|e]; cbn [obind]; [|discriminate].
    destruct (batch_accuracies predict accuracy rest st1) as [[accs1 st2]|e]
      eqn:Hrest; cbn [obind]; [|discriminate].
    intros [= <- <-]. simpl. f_equal. exact (IH _ _ Hrest).
Qed.

(** X15. [get_accuracy] raises [ZeroDivisionError] on a loader without
    batches.  On a loader with batches it ends with the first exception
    that [model.predict] or [metrics.accuracy] raises on a batch, and
    when there is none it returns the mean of the accuracies of the
    batches: their sum divided by the number of batches. *)
Theorem get_accuracy_outcome (data_loader : list (Inputs * Labels)) (st : St) :
  (data_loader = [] ->
   get_accuracy predict accuracy data_loader st = Throws ZeroDivisionError) /\
  (data_loader <> [] ->
   (forall e,
      batch_accuracies predict accuracy data_loader st = Throws e ->
      get_accuracy predict accuracy data_loader st = Throws e) /\
   (forall accs st',
      batch_accuracies predict accuracy data_loader st = Returns (accs, st') ->
      length accs = length data_loader /\
      get_accuracy predict accuracy data_loader st
        = Returns (Torch.sum accs / INR (length data_loader), st'))).
Proof.
  unfold get_accuracy. split.
  - intros ->. reflexivity.
  - intros Hne. rewrite accumulate_batch_accuracies. split.
    + intros e ->. reflexivity.
    + intros accs st' Hrun. split; [exact (batch_accuracies_length _ _ _ _ Hrun)|].
      rewrite Hrun. cbn [obind].
      destruct data_loader as [|batch rest]; [congruence|].
      cbn [length Nat.add Nat.eqb]. now rewrite Rplus_0_l.
Qed.

End GetAccuracy.

Lemma get_accuracy_outcome_witness :
  get_accuracy MoreExamples.echo_predict MoreExamples.label_accuracy
               [] tt = Throws ZeroDivisionError /\
  get_accuracy MoreExamples.echo_predict MoreExamples.failing_accuracy
               MoreExamples.two_batches tt = Throws ZeroDivisionError /\
  length [1 / 2; 1] = length MoreExamples.two_batches /\
  get_accuracy MoreExamples.echo_predict MoreExamples.label_accuracy
               MoreExamples.two_batches tt
    = Returns (Torch.sum [1 / 2; 1] / INR (length MoreExamples.two_batches), tt).
Proof.
  split; [|split].
  - apply (proj1 (get_accuracy_outcome MoreExamples.echo_predict
                    MoreExamples.label_accuracy [] tt)). reflexivity.
  - apply (proj2 (get_accuracy_outcome MoreExamples.echo_predict
                    MoreExamples.failing_accuracy MoreExamples.two_batches tt));
      [discriminate | reflexivity].
  - apply (proj2 (get_accuracy_outcome MoreExamples.echo_predict
                    MoreExamples.label_accuracy MoreExamples.two_batches tt));
      [discriminate | reflexivity].
Defined.

End MnistEnsembleTestProofs.

(** ** Properties of the CIFAR-10 loader *)

Module Cifar10EnsemblePredProofs.

Import Cifar10EnsemblePred.

Section Loader.

Context {ndarray Index Transform : Type}.
Variable h5_dataset : string -> list string -> string -> Outcome ndarray.
Variable take : ndarray -> Index -> Outcome ndarray.
Variable np_load : string -> Outcome ndarray.
Variable first_5000 : ndarray -> ndarray.
Variable take_rows : ndarray -> ndarray -> Outcome ndarray.
Variable times_255 : ndarray -> ndarray.
Variable concatenate : list ndarray -> Outcome ndarray.
Variable ensemble_accuracy : ndarray -> ndarray -> Outcome R.
Variable shape0 : ndarray -> nat.
Variable to_tensor : Transform.
Variable crop_flip_to_tensor : Transform.

Lemma obind_throws {A B : Type} (c : Outcome A) (k : A -> Outcome B) :
  (forall a, exists e, k a = Throws e) -> exists e, obind c k = Throws e.
Proof. intros Hk. destruct c as [a|e]; simpl; eauto. Qed.

Lemma obind_returns {A B : Type} (c : Outcome A) (k : A -> Outcome B) (e : Exn) :
  (exists a, c = Returns a) -> (forall a, k a = Throws e) ->
  obind c k = Throws e.
Proof. intros [a ->] Hk. apply Hk. Qed.

Lemma collect_returns {A B : Type} (f : A -> Outcome B) (xs : list A) :
  (forall x, exists b, f x = Returns b) -> exists bs, collect f xs = Returns bs.
Proof.
  intros Hf. induction xs as [|x xs [bs IH]]; simpl; [eauto|].
  destruct (Hf x) as [b ->]. simpl. rewrite IH. simpl. eauto.
Qed.

(** X18. Constructing a [Cifar10Data] with [corrupted=True] never
    returns: whatever the files hold, the constructor raises, and when
    every read, selection and concatenation returns, what it raises is
    the [TypeError] of the assignment to an item of the tuple [data]. *)
Theorem corrupted_never_constructed (ind : option Index)
    (train augmentation : bool) (data_dir : string) :
  (exists e,
     __init__ h5_dataset take np_load first_5000 take_rows times_255
       concatenate ensemble_accuracy shape0 to_tensor crop_flip_to_tensor
       ind train augmentation true data_dir = Throws e) /\
  ((forall path grp name, exists a, h5_dataset path grp name = Returns a) ->
   (forall a i, exists b, take a i = Returns b) ->
   (forall path, exists a, np_load path = Returns a) ->
   (forall a i, exists b, take_rows a i = Returns b) ->
   (forall l, exists a, concatenate l = Returns a) ->
   __init__ h5_dataset take np_load first_5000 take_rows times_255
     concatenate ensemble_accuracy shape0 to_tensor crop_flip_to_tensor
     ind train augmentation true data_dir = Throws TypeError).
Proof.
  unfold __init__. split.
  - do 5 (apply obind_throws; intros ?).
    destruct a3 as [data targets].
    match goal with |- exists e, obind ?c _ = _ =>
      assert (Hc : exists e, c = Throws e); [|destruct Hc as [e ->]; simpl; eauto] end.
    do 4 (apply obind_throws; intros ?). eauto.
  - intros Hh5 Htake Hload Hrows Hcat.
    do 4 (apply obind_returns; [apply Hh5|]; intros ?).
    apply obind_returns.
    { destruct ind as [i|]; [|eauto].
      destruct (Htake a i) as [d ->], (Htake a0 i) as [p ->],
               (Htake a1 i) as [l ->], (Htake a2 i) as [t ->]. simpl. eauto. }
    intros [data targets].
    match goal with |- obind ?c _ = _ =>
      assert (Hc : c = Throws TypeError); [|rewrite Hc; reflexivity] end.
    apply obind_returns; [apply Hload|]. intros inds.
    apply obind_returns.
    { apply collect_returns. intros [c i]. unfold read_corrupted. cbn [fst snd].
      destruct (Hh5 (data_dir ++ "ensemble_predictions_corrupted_data.h5")%string
                    [c; i] "data"%string) as [d ->]. simpl.
      destruct (Hrows d (first_5000 inds)) as [d' ->]. simpl.
      destruct (Hh5 (data_dir ++ "ensemble_predictions_corrupted_data.h5")%string
                    [c; i] "predictions"%string) as [q ->]. simpl.
      destruct (Hrows q (first_5000 inds)) as [q' ->]. simpl.
      destruct (Hh5 (data_dir ++ "ensemble_predictions_corrupted_data.h5")%string
                    [c; i] "logits"%string) as [l ->]. simpl.
      destruct (Hrows l (first_5000 inds)) as [l' ->]. simpl.
      destruct (Hh5 (data_dir ++ "ensemble_predictions_corrupted_data.h5")%string
                    [c; i] "targets"%string) as [t ->]. simpl.
      destruct (Hrows t (first_5000 inds)) as [t' ->]. simpl. eauto. }
    intros corrupted_.
    apply obind_returns; [apply Hcat|]. intros inner.
    apply obind_returns; [apply Hcat|]. reflexivity.
Qed.

End Loader.

Lemma corrupted_never_constructed_witness :
  __init__ (ndarray := unit) (Index := unit) (Transform := unit)
    (fun _ _ _ => Returns tt) (fun _ _ => Returns tt) (fun _ => Returns tt)
    (fun a => a) (fun _ _ => Returns tt) (fun a => a) (fun _ => Returns tt)
    (fun _ _ => Returns 1%R) (fun _ => 0%nat) tt tt
    None true false true "data/"%string = Throws TypeError.
Proof.
  apply (proj2 (corrupted_never_constructed (ndarray := unit) (Index := unit)
                  (Transform := unit)
                  (fun _ _ _ => Returns tt) (fun _ _ => Returns tt)
                  (fun _ => Returns tt) (fun a => a) (fun _ _ => Returns tt)
                  (fun a => a) (fun _ => Returns tt) (fun _ _ => Returns 1%R)
                  (fun _ => 0%nat) tt tt None true false "data/"%string));
    intros; exists tt; reflexivity.
Defined.

End Cifar10EnsemblePredProofs.
